(** * salary_table: the timesheet parser, the deduction policy and the report table

    A shallow embedding of [table.py].  The Python built-ins the program calls
    ([str.split], [str.strip], [str.replace], [int], [float], the [.2f] format)
    are modelled in [Module Py]; the program's own functions
    ([process_pdf_data], [calculate_deductions], [create_pdf], the body of
    [main]) follow, with the Streamlit calls recorded as a trace of events.

    Scope of the model.
    - A [str] is a [string] whose characters are the code points below 256;
      on these the tables of white space and of decimal digits below are the
      ones of CPython.
    - A Python [int] is a [Z]; a Python [float] is an IEEE 754 binary64 value,
      [spec_float] with precision 53 and maximal exponent 1024, computed with
      the operations of the standard library's [SpecFloat].
    - [int] accepts any number of digits: the limit that recent CPython
      versions put on the length of an int literal (4300 digits by default)
      is not modelled.
    - The calls of the Streamlit API are events: they return, and what the
      display does with a frame is not modelled.
    - A pandas frame keeps its cells as the Python values put into it, and
      making a frame from the rows the program gives it succeeds; the one
      dtype effect that is modelled is the upcast of a column holding both
      ints and floats to floats. *)

From Stdlib Require Import ZArith NArith Ascii String Bool Sorted Lia.
From Stdlib Require Import DecimalString DecimalFacts DecimalPos DecimalN.
From Stdlib Require Import SpecFloat.
From stdpp Require Import base option list strings.

Local Open Scope Z_scope.

(** ** Exceptions and results *)

(** Which conversion a [ValueError] comes from: [float(s)], [int(s)], or the
    format code [f] applied to a string. *)
Inductive conversion := ToFloat | ToInt | FormatF.

(** The exceptions the embedded code can raise.  A [ValueError] keeps the
    string that was handed to the conversion, which is what its message
    quotes; [LayoutError] stands for whatever the document builder raises. *)
Inductive exn :=
| ValueError (what : conversion) (arg : string)
| IndexError
| KeyError (key : string)
| OverflowError
| LayoutError (msg : string).

(** A computation that returns a value or raises. *)
Inductive result (A : Type) :=
| Ok (a : A)
| Raise (e : exn).
Arguments Ok {A} a.
Arguments Raise {A} e.

(** The error monad, with stdpp's notation [x ← r; k].  The comprehension
    [[f(x) for x in xs]] is stdpp's [mapM]: left to right, the first
    exception wins. *)
#[global] Instance result_ret : MRet result := fun A a => Ok a.
#[global] Instance result_bind : MBind result := fun A B k r =>
  match r with
  | Ok a => k a
  | Raise e => Raise e
  end.

#[global] Instance result_fmap : FMap result := fun A B f r =>
  match r with
  | Ok a => Ok (f a)
  | Raise e => Raise e
  end.

(** ** Python built-ins *)

Module Py.

(** *** Characters *)

(** [str.isspace] on one character, for the code points below 256: TAB, LF,
    VT, FF, CR, the separators FS GS RS US, SPACE, NEL and NBSP. *)
Definition isspace (c : ascii) : bool :=
  let n := N_of_ascii c in
  ((9 <=? n) && (n <=? 13) || (28 <=? n) && (n <=? 32)
   || (n =? 133) || (n =? 160))%N.

(** The value of a decimal digit. *)
Definition digit_value (c : ascii) : option N :=
  let n := N_of_ascii c in
  if ((48 <=? n) && (n <=? 57))%N then Some (n - 48)%N else None.

Definition isdigit (c : ascii) : bool :=
  match digit_value c with Some _ => true | None => false end.

(** ASCII lower-casing, as the comparison of [inf] and [nan] uses it. *)
Definition lower (c : ascii) : ascii :=
  let n := N_of_ascii c in
  if ((65 <=? n) && (n <=? 90))%N then ascii_of_N (n + 32) else c.

Fixpoint lower_str (s : string) : string :=
  match s with
  | EmptyString => EmptyString
  | String c s' => String (lower c) (lower_str s')
  end.

(** *** [str] methods *)

(** [s.split(sep)] for a separator of one character: the pieces between
    the separators, of which there is always at least one. *)
Fixpoint split_on (sep : ascii) (s : string) : list string :=
  match s with
  | EmptyString => [EmptyString]
  | String c s' =>
      if Ascii.eqb c sep then EmptyString :: split_on sep s'
      else match split_on sep s' with
           | piece :: pieces => String c piece :: pieces
           | [] => [String c EmptyString]
           end
  end.

Fixpoint lstrip (s : string) : string :=
  match s with
  | EmptyString => EmptyString
  | String c s' => if isspace c then lstrip s' else s
  end.

Fixpoint rstrip (s : string) : string :=
  match s with
  | EmptyString => EmptyString
  | String c s' =>
      match rstrip s' with
      | EmptyString => if isspace c then EmptyString else String c EmptyString
      | r => String c r
      end
  end.

(** [s.strip()]. *)
Definition strip (s : string) : string := rstrip (lstrip s).

(** [s.split()]: the maximal runs of characters that are not white space. *)
Fixpoint split (s : string) : list string :=
  match s with
  | EmptyString => []
  | String c s' =>
      if isspace c then split s'
      else match s' with
           | EmptyString => [String c EmptyString]
           | String c' _ =>
               if isspace c' then String c EmptyString :: split s'
               else match split s' with
                    | tok :: toks => String c tok :: toks
                    | [] => [String c EmptyString]
                    end
           end
  end.

(** [s.replace(old, '')] for one character [old]. *)
Fixpoint remove_char (old : ascii) (s : string) : string :=
  match s with
  | EmptyString => EmptyString
  | String c s' =>
      if Ascii.eqb c old then remove_char old s' else String c (remove_char old s')
  end.

(** [xs[lo:hi]] for [0 <= lo <= hi]. *)
Definition slice {A} (lo hi : nat) (xs : list A) : list A :=
  take (hi - lo) (drop lo xs).

(** [xs[i]] for [0 <= i]. *)
Definition index {A} (xs : list A) (i : nat) : result A :=
  match xs !! i with
  | Some x => Ok x
  | None => Raise IndexError
  end.

(** *** Numbers *)

(** A Python [float]: IEEE 754 binary64. *)
Abbreviation binary64 := spec_float (only parsing).
Abbreviation prec := 53 (only parsing).
Abbreviation emax := 1024 (only parsing).

(** A value that is an [int] or a [float], such as the deduction, which the
    program sets to the int [0] or to a float product. *)
Inductive number :=
| Int (n : Z)
| Float (x : binary64).

(** The white space that [int] and [float] skip at the two ends of their
    argument.  Below 128 it is the white space of C, which leaves out the
    separators FS GS RS US that [str.isspace] counts; from 128 on it is the
    white space of [str.isspace], NEL and NBSP. *)
Definition isspace_literal (c : ascii) : bool :=
  let n := N_of_ascii c in
  ((9 <=? n) && (n <=? 13) || (n =? 32) || (n =? 133) || (n =? 160))%N.

Fixpoint skip_leading (s : string) : string :=
  match s with
  | EmptyString => EmptyString
  | String c s' => if isspace_literal c then skip_leading s' else s
  end.

Fixpoint skip_trailing (s : string) : string :=
  match s with
  | EmptyString => EmptyString
  | String c s' =>
      match skip_trailing s' with
      | EmptyString =>
          if isspace_literal c then EmptyString else String c EmptyString
      | r => String c r
      end
  end.

(** The literal that [int] and [float] read in [s]. *)
Definition strip_literal (s : string) : string := skip_trailing (skip_leading s).

(** A sign, if there is one, and what follows it. *)
Definition read_sign (s : string) : bool * string :=
  match s with
  | String "-" r => (true, r)
  | String "+" r => (false, r)
  | _ => (false, s)
  end.

(** The digits of an [int] literal: one digit at least, and single
    underscores between digits only. *)
Fixpoint digitpart (acc : N) (after_digit : bool) (s : string) : option N :=
  match s with
  | EmptyString => if after_digit then Some acc else None
  | String c s' =>
      match digit_value c with
      | Some d => digitpart (10 * acc + d) true s'
      | None =>
          if Ascii.eqb c "_" && after_digit then digitpart acc false s' else None
      end
  end.

Definition int_literal (s : string) : option Z :=
  let (neg, r) := read_sign s in
  match digitpart 0 false r with
  | Some n => Some (if neg then - Z.of_N n else Z.of_N n)
  | None => None
  end.

(** [int(s)] for a string [s], base 10. *)
Definition int (s : string) : result Z :=
  match int_literal (strip_literal s) with
  | Some n => Ok n
  | None => Raise (ValueError ToInt s)
  end.

(** The decimal [m * 10^e], correctly rounded to the nearest binary64, ties
    to even.  A non-negative exponent rounds an integer; a negative one
    rounds the quotient by the power of ten, whose remainder gives the
    position with respect to the midpoint. *)
Definition from_decimal (neg : bool) (m : N) (e : Z) : binary64 :=
  match m with
  | N0 => S754_zero neg
  | Npos p =>
      if 0 <=? e then binary_round prec emax neg (p * Z.to_pos (10 ^ e)) 0
      else
        let '(q, e', l) :=
          SFdiv_core_binary prec emax (Zpos p) 0 (10 ^ (- e)) 0 in
        binary_round_aux prec emax neg q e' l
  end.

(** The leading decimal digits of [s]: their value on top of [acc], how
    many they are, and the rest of [s]. *)
Fixpoint read_digits (acc : N) (cnt : nat) (s : string) : N * nat * string :=
  match s with
  | EmptyString => (acc, cnt, EmptyString)
  | String c s' =>
      match digit_value c with
      | Some d => read_digits (10 * acc + d) (S cnt) s'
      | None => (acc, cnt, s)
      end
  end.

(** What follows the mantissa: nothing, or [e], a sign if any, and digits. *)
Definition read_exponent (s : string) : option Z :=
  match s with
  | EmptyString => Some 0
  | String c r =>
      if Ascii.eqb (lower c) "e" then
        let (neg, r') := read_sign r in
        match read_digits 0 0 r' with
        | (n, S _, EmptyString) => Some (if neg then - Z.of_N n else Z.of_N n)
        | _ => None
        end
      else None
  end.

(** Underscores are dropped when they sit between two digits and refused
    anywhere else; [prev] is the previous character, NUL at the start. *)
Fixpoint drop_underscores (prev : ascii) (s : string) : option string :=
  match s with
  | EmptyString => if Ascii.eqb prev "_" then None else Some EmptyString
  | String c s' =>
      if Ascii.eqb c "_" then
        if isdigit prev then drop_underscores c s' else None
      else if Ascii.eqb prev "_" && negb (isdigit c) then None
      else String c <$> drop_underscores c s'
  end.

(** A [float] literal without underscores: a signed [inf], [infinity] or
    [nan] in any case, or digits with an optional point and exponent. *)
Definition float_literal (s : string) : option binary64 :=
  let (neg, r) := read_sign s in
  let word := lower_str r in
  if String.eqb word "inf" || String.eqb word "infinity" then
    Some (S754_infinity neg)
  else if String.eqb word "nan" then Some S754_nan
  else
    let '(ip, ni, r1) := read_digits 0 0 r in
    let '(m, nf, r2) :=
      match r1 with
      | String "." r1' => read_digits ip 0 r1'
      | _ => (ip, 0%nat, r1)
      end in
    if (ni + nf =? 0)%nat then None
    else match read_exponent r2 with
         | Some e => Some (from_decimal neg m (e - Z.of_nat nf))
         | None => None
         end.

(** [float(s)] for a string [s]. *)
Definition float (s : string) : result binary64 :=
  match drop_underscores "000" (strip_literal s) ≫= float_literal with
  | Some x => Ok x
  | None => Raise (ValueError ToFloat s)
  end.

(** The conversion of an [int] operand of a float operation: rounded to the
    nearest binary64, ties to even, and an [OverflowError] when the rounded
    value would not be finite. *)
Definition float_of_int (n : Z) : result binary64 :=
  match binary_normalize prec emax n 0 false with
  | S754_infinity _ => Raise OverflowError
  | x => Ok x
  end.

Definition to_float (d : number) : result binary64 :=
  match d with
  | Int n => float_of_int n
  | Float x => Ok x
  end.

(** [n * x] for an int [n] and a float [x]. *)
Definition mul_int_float (n : Z) (x : binary64) : result binary64 :=
  y ← float_of_int n; Ok (SFmul prec emax y x).

(** [x - d] for a float [x] and a number [d]. *)
Definition sub_float_number (x : binary64) (d : number) : result binary64 :=
  y ← to_float d; Ok (SFsub prec emax x y).

(** [d == 0] and [d >= 0]. *)
Definition eq_zero (d : number) : bool :=
  match d with
  | Int n => n =? 0
  | Float x => SFeqb x (S754_zero false)
  end.

Definition ge_zero (d : number) : bool :=
  match d with
  | Int n => 0 <=? n
  | Float x => SFleb (S754_zero false) x
  end.

(** *** The format [.2f] *)

Definition decimal (n : N) : string := NilZero.string_of_uint (N.to_uint n).

(** [m * 2^e] in hundredths, rounded to the nearest, ties to even. *)
Definition hundredths (m : positive) (e : Z) : N :=
  if 0 <=? e then Z.to_N (Zpos m * 2 ^ e * 100)
  else
    let d := 2 ^ (- e) in
    let q := (Zpos m * 100) / d in
    let r := (Zpos m * 100) mod d in
    Z.to_N (match 2 * r ?= d with
            | Lt => q
            | Gt => q + 1
            | Eq => if Z.even q then q else q + 1
            end).

Definition two_digits (n : N) : string :=
  if (n <? 10)%N then "0" +:+ decimal n else decimal n.

Definition fixed2 (neg : bool) (h : N) : string :=
  (if neg then "-" else "") +:+ decimal (h / 100) +:+ "." +:+ two_digits (h mod 100).

(** [f"{x:.2f}"] for a float [x]. *)
Definition format_2f (x : binary64) : string :=
  match x with
  | S754_nan => "nan"
  | S754_infinity s => if s then "-inf" else "inf"
  | S754_zero s => fixed2 s 0
  | S754_finite s m e => fixed2 s (hundredths m e)
  end.

(** [f"{d:.2f}"] for a number [d]: an int is converted to a float first. *)
Definition format_2f_number (d : number) : result string :=
  x ← to_float d; Ok (format_2f x).

(** *** [io.BytesIO] *)

(** The content of the buffer and the position of its cursor. *)
Record BytesIO := { getvalue : list ascii; tell : nat }.

Definition new_BytesIO : BytesIO := {| getvalue := []; tell := 0 |}.

(** [buffer.write(bs)] at the cursor of a buffer that was only appended to. *)
Definition write (bs : list ascii) (b : BytesIO) : BytesIO :=
  {| getvalue := take b.(tell) b.(getvalue) ++ bs;
     tell := (b.(tell) + length bs)%nat |}.

(** [buffer.seek(pos)]. *)
Definition seek (pos : nat) (b : BytesIO) : BytesIO :=
  {| getvalue := b.(getvalue); tell := pos |}.

End Py.


(** ** The data of [table.py] *)

(** One entry of [processed_data]: the list
    [[name, total_salary, salary_per_hour] + hours + [total_hours]], kept by
    its parts.  The entry has [3 + length Days + 1] cells. *)
Record Row := {
  Name : string;
  Total_Salary : Py.binary64;
  Salary_per_hour : Py.binary64;
  Days : list Z;
  Total_Hours : Z
}.

(** The frame that [process_pdf_data] returns: the column labels and the
    entries of [processed_data] as its rows. *)
Record DataFrame := {
  columns : list string;
  rows : list Row
}.

(** One dict of [results] in [calculate_deductions], by its keys ['Name'],
    ['Total Salary'], ['Worked Hours'], ['Threshold Hours'], ['Deduction'] and
    ['Final Salary']. *)
Record DeductionResult := {
  res_Name : string;
  res_Total_Salary : Py.binary64;
  Worked_Hours : Z;
  Threshold_Hours : Z;
  Deduction : Py.number;
  Final_Salary : Py.binary64
}.

(** A cell of a frame whose columns are handled by name, and of the data of
    the report table. *)
Inductive cell :=
| Text (s : string)
| Number (d : Py.number).

(** A frame of cells: the result of [calculate_deductions]. *)
Record Frame := {
  labels : list string;
  cells : list (list cell)
}.

(** The calls of the Streamlit API, in the order the program makes them.
    A message is kept by its parts instead of its formatted text. *)
Inductive call :=
| st_title (s : string)
| st_file_uploader
| st_text (s : string)
| st_write_total_lines (n : nat)
| st_warning_skipping (line : string) (e : exn)
| st_error_no_valid_data
| st_write_processed_entries (n : nat)
| st_subheader (s : string)
| st_dataframe (df : DataFrame)
| st_number_input
| st_button
| st_dataframe_styled (f : Frame)
| st_error_creating_pdf (e : exn)
| st_download_button (data : Py.BytesIO) (file_name mime : string)
| st_error_unable_to_process
| st_error_processing_file (e : exn)
| st_info_upload.

(** ** [extract_text_from_pdf] *)

(** [extract_text_from_pdf(pdf_file)], with the pages of the reader given by
    the text that [page.extract_text()] returns for each: the loop appends
    these texts to [text], which starts empty. *)
Definition extract_text_from_pdf (pages : list string) : string :=
  fold_left (fun text page => text +:+ page) pages EmptyString.

(** ** [process_pdf_data] *)

(** The body of the [try]: the coercion of the tokens of a line, field by
    field.  The comma is removed from the two salary tokens only. *)
Definition coerce (parts : list string) : result Row :=
  name ← Py.index parts 0;
  p1 ← Py.index parts 1;
  total_salary ← Py.float (Py.remove_char "," p1);
  p2 ← Py.index parts 2;
  salary_per_hour ← Py.float (Py.remove_char "," p2);
  hours ← mapM Py.int (Py.slice 3 10 parts);
  p10 ← Py.index parts 10;
  total_hours ← Py.int p10;
  Ok {| Name := name; Total_Salary := total_salary;
        Salary_per_hour := salary_per_hour; Days := hours;
        Total_Hours := total_hours |}.

(** The state of the loop over [data_lines]: [processed_data] and the calls
    made so far. *)
Definition loop_state : Type := list Row * list call.

(** One turn of the loop.  A line of fewer than 11 tokens is passed over; a
    line whose coercion raises is reported by [st.warning] (the exceptions the
    [try] body can raise are those the handler names, see
    [coerce_raises]). *)
Definition process_line (st : loop_state) (line : string) : loop_state :=
  let '(processed_data, trace) := st in
  let parts := Py.split line in
  if (11 <=? length parts)%nat then
    match coerce parts with
    | Ok entry => (processed_data ++ [entry], trace)
    | Raise e => (processed_data, trace ++ [st_warning_skipping line e])
    end
  else st.

(** [[line.strip() for line in lines[1:] if line.strip()]]. *)
Definition data_lines (lines : list string) : list string :=
  Py.strip <$> List.filter (fun line => negb (String.eqb (Py.strip line) ""))
                           (drop 1 lines).

(** [['Name', 'Total Salary', 'Salary per hour']
     + [f'{i}/09/2024' for i in range(1, 8)] + ['Total Hours']]. *)
Definition dataset_columns : list string :=
  ["Name"; "Total Salary"; "Salary per hour"]
  ++ ((fun i => Py.decimal (N.of_nat i) +:+ "/09/2024") <$> seq 1 7)
  ++ ["Total Hours"].

(** The loop of [process_pdf_data], from the empty [processed_data]. *)
Definition parse_lines (lines : list string) (trace : list call) : loop_state :=
  fold_left process_line (data_lines lines) ([], trace).

(** [process_pdf_data(pdf_text)]: the calls made and the value returned,
    [None] or the frame. *)
Definition process_pdf_data (pdf_text : string) : list call * option DataFrame :=
  let lines := Py.split_on "010" pdf_text in
  let '(processed_data, trace) :=
    parse_lines lines [st_write_total_lines (length lines)] in
  match processed_data with
  | [] => (trace ++ [st_error_no_valid_data], None)
  | _ :: _ =>
      let df := {| columns := dataset_columns; rows := processed_data |} in
      (trace ++ [st_write_processed_entries (length df.(rows))], Some df)
  end.

(** ** [calculate_deductions] *)

(** One turn of the loop over the rows: the dict appended to [results]. *)
Definition deduction_result (threshold_hours : Z) (row : Row)
  : result DeductionResult :=
  let worked_hours := row.(Total_Hours) in
  deduction ←
    (if threshold_hours <=? worked_hours then Ok (Py.Int 0)
     else Py.Float <$> Py.mul_int_float (threshold_hours - worked_hours)
                                        row.(Salary_per_hour));
  final_salary ← Py.sub_float_number row.(Total_Salary) deduction;
  Ok {| res_Name := row.(Name);
        res_Total_Salary := row.(Total_Salary);
        Worked_Hours := worked_hours;
        Threshold_Hours := threshold_hours;
        Deduction := deduction;
        Final_Salary := final_salary |}.

(** The keys of a dict of [results], in the order they are written. *)
Definition result_columns : list string :=
  ["Name"; "Total Salary"; "Worked Hours"; "Threshold Hours"; "Deduction";
   "Final Salary"].

Definition is_float (d : Py.number) : bool :=
  match d with Py.Float _ => true | Py.Int _ => false end.

(** The upcast of a column that holds ints and floats: its ints become
    floats.  The only int the program puts into the column ['Deduction'] is
    0. *)
Definition upcast (d : Py.number) : Py.number :=
  match d with
  | Py.Int n => Py.Float (binary_normalize 53 1024 n 0 false)
  | Py.Float _ => d
  end.

(** The row of the frame for one dict; [mixed] tells whether the column
    ['Deduction'] holds a float. *)
Definition result_cells (mixed : bool) (r : DeductionResult) : list cell :=
  [Text r.(res_Name);
   Number (Py.Float r.(res_Total_Salary));
   Number (Py.Int r.(Worked_Hours));
   Number (Py.Int r.(Threshold_Hours));
   Number (if mixed then upcast r.(Deduction) else r.(Deduction));
   Number (Py.Float r.(Final_Salary))].

(** [pd.DataFrame(results)] for a list of dicts: the columns are the keys of
    the dicts, so a frame made from no dict has no column. *)
Definition frame_of_results (results : list DeductionResult) : Frame :=
  match results with
  | [] => {| labels := []; cells := [] |}
  | _ :: _ =>
      let mixed := existsb (fun r => is_float r.(Deduction)) results in
      {| labels := result_columns; cells := result_cells mixed <$> results |}
  end.

(** The list [results] that the loop builds, one dict per row. *)
Definition deduction_results (df : DataFrame) (threshold_hours : Z)
  : result (list DeductionResult) :=
  mapM (deduction_result threshold_hours) df.(rows).

(** [calculate_deductions(df, threshold_hours)]. *)
Definition calculate_deductions (df : DataFrame) (threshold_hours : Z)
  : result Frame :=
  frame_of_results <$> deduction_results df threshold_hours.

(** ** [create_pdf] *)

(** Where a label stands among the columns. *)
Fixpoint position (col : string) (cols : list string) : option nat :=
  match cols with
  | [] => None
  | c :: cols' => if String.eqb c col then Some 0%nat else S <$> position col cols'
  end.

(** [lambda x: f"{x:.2f}"] on a cell. *)
Definition format_cell (c : cell) : result cell :=
  match c with
  | Number d => Text <$> Py.format_2f_number d
  | Text s => Raise (ValueError FormatF s)
  end.

(** [df[col] = df[col].apply(f)]: a [KeyError] when the frame has no such
    column, else [f] on the cell of that column in every row, in order. *)
Definition apply_column (f : cell -> result cell) (col : string) (df : Frame)
  : result Frame :=
  match position col df.(labels) with
  | None => Raise (KeyError col)
  | Some j =>
      formatted ←
        mapM (fun row : list cell =>
                match row !! j with
                | Some c => c' ← f c; Ok (<[j := c']> row)
                | None => Ok row
                end) df.(cells);
      Ok {| labels := df.(labels); cells := formatted |}
  end.

(** The list [data] handed to [Table]: the labels, then the rows of
    [formatted_df]. *)
Definition table_data (df : Frame) : result (list (list cell)) :=
  let formatted_df := df in
  formatted_df ← apply_column format_cell "Total Salary" formatted_df;
  formatted_df ← apply_column format_cell "Deduction" formatted_df;
  formatted_df ← apply_column format_cell "Final Salary" formatted_df;
  Ok ((Text <$> df.(labels)) :: formatted_df.(cells)).

Section Report.

(** The document-building capability, [doc.build] on the one table: the bytes
    it writes to the buffer, or the exception it raises. *)
Variable build : list (list cell) -> result (list ascii).

(** [create_pdf(df)]: the calls made, and the value returned ([None] or the
    buffer) or the exception that leaves the function.  What is raised before
    the [try] is not caught. *)
Definition create_pdf (df : Frame) : list call * result (option Py.BytesIO) :=
  let buffer := Py.new_BytesIO in
  match table_data df with
  | Raise e => ([], Raise e)
  | Ok data =>
      match build data with
      | Ok written =>
          let buffer := Py.write written buffer in
          let buffer := Py.seek 0 buffer in
          ([], Ok (Some buffer))
      | Raise e => ([st_error_creating_pdf e], Ok None)
      end
  end.

(** ** [main] *)

(** [pdf_text[:500] + "..." if len(pdf_text) > 500 else pdf_text]. *)
Definition preview (pdf_text : string) : string :=
  if (500 <? String.length pdf_text)%nat
  then String.substring 0 500 pdf_text +:+ "..."
  else pdf_text.

(** What follows [result_df = calculate_deductions(df, threshold_hours)].
    The call [st_dataframe_styled] is recorded with the frame that is
    styled: the formats of the style ([.2f] for the amounts, [.0f] for the
    hours) are applied by the display, and are not modelled. *)
Definition report (result_df : Frame) : list call :=
  let '(trace, returned) := create_pdf result_df in
  [st_subheader "Salary Deductions"; st_dataframe_styled result_df] ++ trace ++
  match returned with
  | Raise e => [st_error_processing_file e]
  | Ok (Some pdf_buffer) =>
      [st_download_button pdf_buffer "salary_deductions.pdf" "application/pdf"]
  | Ok None => []
  end.

(** One run of [main], as the calls it makes.  [uploaded_file] is [None]
    when no file was chosen, else what [extract_text_from_pdf] does on the
    file; [threshold_hours] is what the number input returns and [button]
    whether the button was pressed.  The exceptions that reach the handler
    of [main] are those of the program's own functions: every call of the
    Streamlit API is taken to return, so that a run in which such a call
    raises is not described.  [st_text] is the call made within the
    expander, which is not recorded by itself. *)
Definition main (uploaded_file : option (result string))
    (threshold_hours : Z) (button : bool) : list call :=
  [st_title "Salary Calculator App"; st_file_uploader] ++
  match uploaded_file with
  | None => [st_info_upload]
  | Some (Raise e) => [st_error_processing_file e]
  | Some (Ok pdf_text) =>
      let '(trace, df) := process_pdf_data pdf_text in
      [st_text (preview pdf_text)] ++ trace ++
      match df with
      | Some ({| rows := _ :: _ |} as df) =>
          [st_subheader "Extracted Data"; st_dataframe df;
           st_number_input; st_button] ++
          if button then
            match calculate_deductions df threshold_hours with
            | Ok result_df => report result_df
            | Raise e => [st_error_processing_file e]
            end
          else []
      | _ => [st_error_unable_to_process]
      end
  end.

End Report.

(** ** Reference readings of the parser *)

(** Whether [c] occurs in [s]. *)
Fixpoint has_char (c : ascii) (s : string) : bool :=
  match s with
  | EmptyString => false
  | String c' s' => Ascii.eqb c' c || has_char c s'
  end.

(** Whether no character of [s] is white space. *)
Fixpoint no_space (s : string) : bool :=
  match s with
  | EmptyString => true
  | String c s' => negb (Py.isspace c) && no_space s'
  end.

(** What a stripped line gives: its entry when it has 11 tokens or more and
    they coerce, else nothing. *)
Definition accept (line : string) : option Row :=
  let parts := Py.split line in
  if (11 <=? length parts)%nat then
    match coerce parts with
    | Ok entry => Some entry
    | Raise _ => None
    end
  else None.

(** The warning a stripped line gives: one when it has 11 tokens or more and
    their coercion raises, else none. *)
Definition warning (line : string) : option call :=
  let parts := Py.split line in
  if (11 <=? length parts)%nat then
    match coerce parts with
    | Ok _ => None
    | Raise e => Some (st_warning_skipping line e)
    end
  else None.

(** The entries accepted from a text: those of its lines after the first. *)
Definition accepted_records (pdf_text : string) : list Row :=
  omap (fun line => accept (Py.strip line)) (drop 1 (Py.split_on "010" pdf_text)).

(** The warnings a text gives rise to, in the order of its lines. *)
Definition rejection_report (pdf_text : string) : list call :=
  omap (fun line => warning (Py.strip line)) (drop 1 (Py.split_on "010" pdf_text)).

(** The list [processed_data] when the loop of [process_pdf_data] ends. *)
Definition processed_data (pdf_text : string) : list Row :=
  let lines := Py.split_on "010" pdf_text in
  fst (parse_lines lines [st_write_total_lines (length lines)]).

(** A float of sign [s] that is not a NaN. *)
Definition signed (s : bool) (x : Py.binary64) : Prop :=
  match x with
  | S754_nan => False
  | S754_zero s' | S754_infinity s' | S754_finite s' _ _ => s' = s
  end.

(** The data-model invariant of an employee record, as the specification
    words it: a non-empty name, salaries that are at least 0, seven daily
    hours that are non-negative, total hours that are non-negative. *)
Definition EmployeeRecord_invariant (r : Row) : Prop :=
  r.(Name) <> EmptyString
  /\ Py.ge_zero (Py.Float r.(Total_Salary)) = true
  /\ Py.ge_zero (Py.Float r.(Salary_per_hour)) = true
  /\ length r.(Days) = 7%nat
  /\ Forall (fun h => 0 <= h) r.(Days)
  /\ 0 <= r.(Total_Hours).

(** What the parser does guarantee of a retained entry. *)
Definition retained_shape (r : Row) : Prop :=
  r.(Name) <> EmptyString
  /\ no_space r.(Name) = true
  /\ length r.(Days) = 7%nat.

(** ** Reference readings of the calculator and of the renderer *)

(** The policy on one row and its result: the fields carried over, the
    deduction by the threshold, the final salary by subtraction. *)
Definition follows_policy (threshold_hours : Z) (row : Row) (r : DeductionResult)
  : Prop :=
  r.(res_Name) = row.(Name)
  /\ r.(res_Total_Salary) = row.(Total_Salary)
  /\ r.(Worked_Hours) = row.(Total_Hours)
  /\ r.(Threshold_Hours) = threshold_hours
  /\ (threshold_hours <= row.(Total_Hours) -> r.(Deduction) = Py.Int 0)
  /\ (row.(Total_Hours) < threshold_hours ->
      exists shortfall,
        Py.float_of_int (threshold_hours - row.(Total_Hours)) = Ok shortfall
        /\ r.(Deduction)
           = Py.Float (SFmul 53 1024 shortfall row.(Salary_per_hour)))
  /\ Py.sub_float_number row.(Total_Salary) r.(Deduction) = Ok r.(Final_Salary).

(** What the policy entails for the sign of the deduction. *)
Definition deduction_sign (threshold_hours : Z) (row : Row) (r : DeductionResult)
  : Prop :=
  (row.(Total_Hours) < threshold_hours ->
   Py.ge_zero (Py.Float row.(Salary_per_hour)) = true ->
   Py.ge_zero r.(Deduction) = true)
  /\ (threshold_hours <= row.(Total_Hours) -> Py.eq_zero r.(Deduction) = true)
  /\ (valid_binary 53 1024 row.(Salary_per_hour) = true ->
      (Py.eq_zero r.(Deduction) = true
       <-> threshold_hours <= row.(Total_Hours)
           \/ Py.eq_zero (Py.Float row.(Salary_per_hour)) = true)).

(** A row whose shortfall of hours, if it has one, converts to a float. *)
Definition shortfall_converts (threshold_hours : Z) (row : Row) : Prop :=
  row.(Total_Hours) < threshold_hours ->
  exists shortfall,
    Py.float_of_int (threshold_hours - row.(Total_Hours)) = Ok shortfall.

(** A result whose deduction converts to a float, as the int [0] and every
    float do. *)
Definition deduction_converts (r : DeductionResult) : Prop :=
  exists x, Py.to_float r.(Deduction) = Ok x.

(** The deduction in the format [.2f]. *)
Definition deduction_text (r : DeductionResult) : string :=
  match Py.to_float r.(Deduction) with
  | Ok x => Py.format_2f x
  | Raise _ => EmptyString
  end.

(** The row of the report table for one result: the three amounts as text
    with two decimals, the two hour counts as the ints they are. *)
Definition report_row (r : DeductionResult) : list cell :=
  [Text r.(res_Name);
   Text (Py.format_2f r.(res_Total_Salary));
   Number (Py.Int r.(Worked_Hours));
   Number (Py.Int r.(Threshold_Hours));
   Text (deduction_text r);
   Text (Py.format_2f r.(Final_Salary))].

(** A text with two decimals: digits, a point and two digits, after a sign
    if any. *)
Definition two_decimals (s : string) : Prop :=
  exists (neg : bool) (whole : string) (d1 d2 : ascii),
    s = (if neg then "-" else "") +:+ whole +:+ "." +:+ String d1 (String d2 "")
    /\ Py.isdigit d1 = true /\ Py.isdigit d2 = true.

(** The number that a text of decimal digits denotes, by the reader of the
    standard library: none for the empty text and for a text with a
    character that is no digit. *)
Definition read_decimal (s : string) : option N :=
  N.of_uint <$> NilZero.uint_of_string s.

(** Digits that start with a zero only when the zero is the only digit. *)
Definition no_leading_zero (s : string) : Prop :=
  forall r, s = String "0" r -> r = EmptyString.

(** [h] hundredths are the nearest to [m * 2^e], and [h] is the even one of
    the two nearest when [m * 2^e] lies half-way between two hundredths.
    With [m * 2^e * 100 = num / den], the distance [|num / den - h|] is 1/2
    at most, and [h] is even when it is 1/2. *)
Definition nearest_hundredth (m : positive) (e : Z) (h : N) : Prop :=
  let num := Zpos m * 100 * 2 ^ Z.max e 0 in
  let den := 2 ^ Z.max (- e) 0 in
  2 * Z.abs (num - Z.of_N h * den) <= den
  /\ (2 * Z.abs (num - Z.of_N h * den) = den -> Z.even (Z.of_N h) = true).

(** A text in fixed point with two decimals that denotes [h] hundredths,
    under the sign [neg]: a minus sign when [neg], the digits of the whole
    part [h / 100], a point, and two digits for [h mod 100]. *)
Definition fixed_point_text (neg : bool) (h : N) (text : string) : Prop :=
  exists whole frac : string,
    text = (if neg then "-" else "") +:+ whole +:+ "." +:+ frac
    /\ read_decimal whole = Some (h / 100)%N
    /\ no_leading_zero whole
    /\ String.length frac = 2%nat
    /\ read_decimal frac = Some (h mod 100)%N.

(** What a text has to be for a float to be rendered with two decimals: the
    fixed-point text of the float rounded to the nearest hundredth, under
    the sign of the float, when the float is finite; and [inf], [-inf] or
    [nan] when it is not. *)
Definition rendering (x : Py.binary64) (text : string) : Prop :=
  match x with
  | S754_nan => text = "nan"
  | S754_infinity s => text = if s then "-inf" else "inf"
  | S754_zero s => fixed_point_text s 0 text
  | S754_finite s m e =>
      exists h, nearest_hundredth m e h /\ fixed_point_text s h text
  end.

(** Whether [s] has two characters and denotes [n]. *)
Definition reads_two_digits (n : N) (s : string) : bool :=
  (String.length s =? 2)%nat
  && match read_decimal s with Some k => (k =? n)%N | None => false end.

(** ** Reference readings of the diagnostics *)

(** Whether a call is a warning of a skipped line. *)
Definition is_warning (c : call) : bool :=
  match c with
  | st_warning_skipping _ _ => true
  | _ => false
  end.

(** Whether a line of the text has 11 tokens or more. *)
Definition long_line (line : string) : bool :=
  (11 <=? length (Py.split (Py.strip line)))%nat.

(** The list that is appended to [processed_data] for an entry, cell by
    cell: [[name, total_salary, salary_per_hour] + hours + [total_hours]]. *)
Definition entry_cells (r : Row) : list cell :=
  [Text r.(Name); Number (Py.Float r.(Total_Salary));
   Number (Py.Float r.(Salary_per_hour))]
  ++ ((fun h => Number (Py.Int h)) <$> r.(Days))
  ++ [Number (Py.Int r.(Total_Hours))].

(** ** Further readings of the calculator *)

(** A row below the threshold whose shortfall does not convert to a float. *)
Definition shortfall_overflows (threshold_hours : Z) (row : Row) : Prop :=
  row.(Total_Hours) < threshold_hours
  /\ Py.float_of_int (threshold_hours - row.(Total_Hours)) = Raise OverflowError.

(** The result of a row from which nothing is deducted. *)
Definition undeducted (threshold_hours : Z) (row : Row) : DeductionResult :=
  {| res_Name := row.(Name);
     res_Total_Salary := row.(Total_Salary);
     Worked_Hours := row.(Total_Hours);
     Threshold_Hours := threshold_hours;
     Deduction := Py.Int 0;
     Final_Salary := row.(Total_Salary) |}.

(** ** Sample data *)

(** The header and the line of Alice of the specification's examples, with
    a line that does not coerce. *)
Definition sample_text : string :=
  "Name TotalSalary Rate D1 D2 D3 D4 D5 D6 D7 Total
Alice 2,000.00 25.00 8 8 8 8 8 0 0 40
Bob notanumber 10 1 1 1 1 1 1 1 7".

(** [2000.0] and [25.0]. *)
Definition alice : Row :=
  {| Name := "Alice";
     Total_Salary := S754_finite false 8796093022208000 (-42);
     Salary_per_hour := S754_finite false 7036874417766400 (-48);
     Days := [8; 8; 8; 8; 8; 0; 0];
     Total_Hours := 40 |}.

(** Alice under a threshold of 45 hours: a deduction of [125.0] and a final
    salary of [1875.0]. *)
Definition alice_result : DeductionResult :=
  {| res_Name := "Alice";
     res_Total_Salary := S754_finite false 8796093022208000 (-42);
     Worked_Hours := 40;
     Threshold_Hours := 45;
     Deduction := Py.Float (S754_finite false 8796093022208000 (-46));
     Final_Salary := S754_finite false 8246337208320000 (-42) |}.

(** A line whose total salary is the literal [inf], and its entry. *)
Definition infinite_text : string :=
  "Name TotalSalary Rate D1 D2 D3 D4 D5 D6 D7 Total
Bob inf 10 8 8 8 8 8 0 0 40".

Definition bob : Row :=
  {| Name := "Bob";
     Total_Salary := S754_infinity false;
     Salary_per_hour := S754_finite false 5629499534213120 (-49);
     Days := [8; 8; 8; 8; 8; 0; 0];
     Total_Hours := 40 |}.

(** Bob under a threshold of 40 hours. *)
Definition bob_result : DeductionResult :=
  {| res_Name := "Bob";
     res_Total_Salary := S754_infinity false;
     Worked_Hours := 40;
     Threshold_Hours := 40;
     Deduction := Py.Int 0;
     Final_Salary := S754_infinity false |}.

(** A builder that writes the four bytes [%PDF]. *)
Definition sample_build (data : list (list cell)) : result (list ascii) :=
  Ok ["%"; "P"; "D"; "F"]%char.

(** * Properties *)

(** ** Strings *)

Section Strings.

Lemma split_on_no_sep sep s :
  has_char sep s = false -> Py.split_on sep s = [s].
Proof.
  induction s as [|c s IH]; simpl; [done|].
  intros [Hc Hs]%orb_false_elim. rewrite Hc, (IH Hs). done.
Qed.

Lemma split_on_first sep first rest :
  has_char sep first = false ->
  Py.split_on sep (first +:+ String sep rest) = first :: Py.split_on sep rest.
Proof.
  induction first as [|c s IH]; simpl.
  - intros _. by rewrite Ascii.eqb_refl.
  - intros [Hc Hs]%orb_false_elim. rewrite Hc, (IH Hs). done.
Qed.

Lemma split_tokens s :
  Forall (fun tok => tok <> EmptyString /\ no_space tok = true) (Py.split s).
Proof.
  induction s as [|c s IH]; simpl; [constructor|].
  destruct (Py.isspace c) eqn:Hc; [done|].
  destruct s as [|c' s']; [by repeat constructor; simpl; rewrite ?Hc|].
  destruct (Py.isspace c') eqn:Hc'.
  - constructor; [by simpl; rewrite Hc|done].
  - destruct (Py.split (String c' s')) as [|tok toks];
      [by repeat constructor; simpl; rewrite ?Hc|].
    inversion_clear IH as [|? ? [Htok Hns] Htoks].
    constructor; [|done]. split; [done|]. simpl. by rewrite Hc.
Qed.

Lemma split_empty : Py.split EmptyString = [].
Proof. reflexivity. Qed.

Lemma split_no_space s :
  s <> EmptyString -> no_space s = true -> Py.split s = [s].
Proof.
  induction s as [|c s IH]; [done|]. intros _. simpl.
  intros [Hc Hs]%andb_prop. apply negb_true_iff in Hc. rewrite Hc.
  destruct s as [|c' s']; [done|].
  assert (Hc' : Py.isspace c' = false).
  { simpl in Hs. apply andb_prop in Hs as [Hc' _]. by apply negb_true_iff. }
  rewrite Hc'. by rewrite IH.
Qed.

Lemma has_char_lstrip c s :
  Py.isspace c = false -> has_char c (Py.lstrip s) = has_char c s.
Proof.
  intros Hc. induction s as [|c' s IH]; simpl; [done|].
  destruct (Py.isspace c') eqn:Hc'; [|done].
  rewrite IH. destruct (Ascii.eqb_spec c' c); [congruence|done].
Qed.

Lemma has_char_rstrip c s :
  Py.isspace c = false -> has_char c (Py.rstrip s) = has_char c s.
Proof.
  intros Hc. induction s as [|c' s IH]; simpl; [done|].
  destruct (Py.rstrip s) as [|c'' r] eqn:Hr.
  - rewrite <- IH. simpl. destruct (Py.isspace c') eqn:Hc'; simpl; [|done].
    destruct (Ascii.eqb_spec c' c); [congruence|done].
  - simpl. simpl in IH. by rewrite IH.
Qed.

Lemma has_char_strip c s :
  Py.isspace c = false -> has_char c (Py.strip s) = has_char c s.
Proof.
  intros Hc. unfold Py.strip. by rewrite has_char_rstrip, has_char_lstrip.
Qed.

Lemma has_char_skip_leading c s :
  Py.isspace_literal c = false -> has_char c (Py.skip_leading s) = has_char c s.
Proof.
  intros Hc. induction s as [|c' s IH]; simpl; [done|].
  destruct (Py.isspace_literal c') eqn:Hc'; [|done].
  rewrite IH. destruct (Ascii.eqb_spec c' c); [congruence|done].
Qed.

Lemma has_char_skip_trailing c s :
  Py.isspace_literal c = false -> has_char c (Py.skip_trailing s) = has_char c s.
Proof.
  intros Hc. induction s as [|c' s IH]; simpl; [done|].
  destruct (Py.skip_trailing s) as [|c'' r] eqn:Hr.
  - rewrite <- IH. simpl. destruct (Py.isspace_literal c') eqn:Hc'; simpl; [|done].
    destruct (Ascii.eqb_spec c' c); [congruence|done].
  - simpl. simpl in IH. by rewrite IH.
Qed.

Lemma has_char_strip_literal c s :
  Py.isspace_literal c = false -> has_char c (Py.strip_literal s) = has_char c s.
Proof.
  intros Hc. unfold Py.strip_literal.
  by rewrite has_char_skip_trailing, has_char_skip_leading.
Qed.

Lemma remove_char_has c s : has_char c (Py.remove_char c s) = false.
Proof.
  induction s as [|c' s IH]; simpl; [done|].
  destruct (Ascii.eqb c' c) eqn:E; simpl; [done|]. by rewrite E.
Qed.

Lemma remove_char_id c s : has_char c s = false -> Py.remove_char c s = s.
Proof.
  induction s as [|c' s IH]; simpl; [done|].
  intros [Hc Hs]%orb_false_elim. rewrite Hc. by rewrite IH.
Qed.

Lemma remove_char_idem c s :
  Py.remove_char c (Py.remove_char c s) = Py.remove_char c s.
Proof. apply remove_char_id, remove_char_has. Qed.

End Strings.

(** ** Conversions *)

Section Conversions.

Lemma digitpart_no_comma acc after s n :
  Py.digitpart acc after s = Some n -> has_char "," s = false.
Proof.
  revert acc after. induction s as [|c s IH]; intros acc after; simpl; [done|].
  destruct (Ascii.eqb_spec c ",") as [->|_]; [by destruct after|].
  simpl. destruct (Py.digit_value c); [by apply IH|].
  destruct (Ascii.eqb c "_" && after); [by apply IH|done].
Qed.

Lemma int_literal_no_comma s n :
  Py.int_literal s = Some n -> has_char "," s = false.
Proof.
  unfold Py.int_literal, Py.read_sign. intros H.
  assert (Hd : forall r, (exists k, Py.digitpart 0 false r = Some k) ->
                         has_char "," r = false).
  { intros r [k Hk]. by eapply digitpart_no_comma. }
  destruct s as [|c r]; [done|].
  destruct (Ascii.eqb_spec c "-") as [->|Hm].
  { simpl. apply Hd. destruct (Py.digitpart 0 false r); [eauto|done]. }
  destruct (Ascii.eqb_spec c "+") as [->|Hp].
  { simpl. apply Hd. destruct (Py.digitpart 0 false r); [eauto|done]. }
  assert (Hs : Py.digitpart 0 false (String c r) <> None).
  { destruct c as [[] [] [] [] [] [] [] []];
      first [by exfalso; apply Hm | by exfalso; apply Hp
            | by destruct (Py.digitpart 0 false (String _ r))]. }
  apply Hd. destruct (Py.digitpart 0 false (String c r)); [eauto|done].
Qed.

(** A token with a comma in it is no [int] literal. *)
Lemma int_comma s :
  has_char "," s = true -> Py.int s = Raise (ValueError ToInt s).
Proof.
  intros Hs. unfold Py.int.
  destruct (Py.int_literal (Py.strip_literal s)) as [n|] eqn:Hn; [|done].
  apply int_literal_no_comma in Hn.
  rewrite has_char_strip_literal in Hn by done. congruence.
Qed.

(** [int] and [float] raise nothing but a [ValueError], which quotes their
    argument. *)
Lemma int_raises s e : Py.int s = Raise e -> e = ValueError ToInt s.
Proof. unfold Py.int. destruct (Py.int_literal _); congruence. Qed.

Lemma float_raises s e : Py.float s = Raise e -> e = ValueError ToFloat s.
Proof. unfold Py.float. destruct (_ ≫= _); congruence. Qed.

End Conversions.

(** ** The parser *)

Section Parser.

(** A list of at least 11 tokens, spelled out. *)
Ltac eleven parts H :=
  do 11 (destruct parts as [|? parts]; [by simpl in H; lia|]); clear H.

Lemma mapM_result_length {A B} (f : A -> result B) xs ys :
  mapM f xs = Ok ys -> length ys = length xs.
Proof.
  revert ys. induction xs as [|x xs IH]; intros ys; simpl.
  - by intros [= <-].
  - destruct (f x) as [y|]; simpl; [|done].
    destruct (mapM f xs) as [ys'|]; simpl; [|done].
    intros [= <-]. simpl. by rewrite (IH ys').
Qed.

Lemma mapM_result_raises {A B} (f : A -> result B) xs e :
  mapM f xs = Raise e -> exists x, x ∈ xs /\ f x = Raise e.
Proof.
  induction xs as [|x xs IH]; simpl; [done|].
  destruct (f x) as [y|e'] eqn:Hx; simpl.
  - destruct (mapM f xs) as [ys'|e'']; simpl; [done|].
    intros [= ->]. destruct IH as (x' & Hin & Hx'); [done|].
    exists x'. split; [by right|done].
  - intros [= ->]. exists x. split; [by left|done].
Qed.

Lemma bind_Raise {A B} (r : result A) (k : A -> result B) e :
  r ≫= k = Raise e -> r = Raise e \/ exists a, r = Ok a /\ k a = Raise e.
Proof. destruct r as [a|e']; simpl; intros H; [right; by exists a|left; congruence]. Qed.

Lemma index_Raise {A} (xs : list A) i e :
  Py.index xs i = Raise e -> (length xs <= i)%nat.
Proof.
  unfold Py.index. destruct (xs !! i) eqn:H; [done|].
  intros _. by apply lookup_ge_None.
Qed.

(** Only the first 11 tokens are read. *)
Lemma coerce_take parts :
  (11 <= length parts)%nat -> coerce parts = coerce (take 11 parts).
Proof. intros H. eleven parts H. reflexivity. Qed.

Lemma coerce_app parts extra :
  length parts = 11%nat -> coerce (parts ++ extra) = coerce parts.
Proof.
  intros H. rewrite coerce_take by (rewrite length_app; lia).
  rewrite take_app_length' by done. done.
Qed.

(** With 11 tokens or more the [try] body raises a [ValueError] or nothing:
    the handler's [(ValueError, IndexError)] catches all it can raise. *)
Lemma coerce_raises parts e :
  (11 <= length parts)%nat -> coerce parts = Raise e ->
  exists what arg, e = ValueError what arg.
Proof.
  intros Hlen Hc. unfold coerce in Hc.
  repeat (apply bind_Raise in Hc as [Hc|(? & _ & Hc)]);
    try (apply index_Raise in Hc; lia);
    try (apply float_raises in Hc; eauto);
    try (apply int_raises in Hc; eauto); [|done].
  apply mapM_result_raises in Hc as (h & _ & Hc).
  apply int_raises in Hc; eauto.
Qed.

(** An accepted entry: its name is the first token and it has seven daily
    hours. *)
Lemma coerce_Ok parts r :
  coerce parts = Ok r ->
  parts !! 0%nat = Some r.(Name) /\ length r.(Days) = 7%nat.
Proof.
  unfold coerce, Py.index.
  destruct (parts !! 0%nat) as [name|] eqn:H0; simpl; [|done].
  destruct (parts !! 1%nat) as [p1|]; simpl; [|done].
  destruct (Py.float _); simpl; [|done].
  destruct (parts !! 2%nat) as [p2|]; simpl; [|done].
  destruct (Py.float _); simpl; [|done].
  destruct (mapM _ _) as [hours|] eqn:Hh; simpl; [|done].
  destruct (parts !! 10%nat) as [p10|] eqn:H10; simpl; [|done].
  destruct (Py.int p10); simpl; [|done].
  intros [= <-]. simpl. split; [done|].
  apply mapM_result_length in Hh. rewrite Hh.
  apply lookup_lt_Some in H10. unfold Py.slice.
  rewrite length_take, length_drop. lia.
Qed.

(** The loop adds the entries of the accepted lines to [processed_data], and
    the warnings of the lines whose coercion raised to the trace. *)
Lemma process_line_spec processed_data trace line :
  process_line (processed_data, trace) line
  = (processed_data ++ option_list (accept line),
     trace ++ option_list (warning line)).
Proof.
  unfold process_line, accept, warning.
  destruct (11 <=? length (Py.split line))%nat; simpl;
    [|by rewrite !app_nil_r].
  destruct (coerce (Py.split line)); simpl; by rewrite !app_nil_r.
Qed.

Lemma loop_spec ls processed_data trace :
  fold_left process_line ls (processed_data, trace)
  = (processed_data ++ omap accept ls, trace ++ omap warning ls).
Proof.
  revert processed_data trace.
  induction ls as [|line ls IH]; intros processed_data trace; cbn [fold_left].
  - by rewrite !app_nil_r.
  - rewrite process_line_spec, IH, <- !app_assoc. simpl.
    by destruct (accept line), (warning line).
Qed.

Lemma data_lines_omap {A} (f : string -> option A) lines :
  f EmptyString = None ->
  omap f (data_lines lines) = omap (fun line => f (Py.strip line)) (drop 1 lines).
Proof.
  intros Hf. unfold data_lines.
  induction (drop 1 lines) as [|line ls IH]; simpl; [done|].
  destruct (String.eqb_spec (Py.strip line) EmptyString) as [E|_]; simpl.
  - by rewrite E, Hf.
  - destruct (f (Py.strip line)); [f_equal|]; exact IH.
Qed.

Lemma parse_lines_spec pdf_text trace :
  parse_lines (Py.split_on "010" pdf_text) trace
  = (accepted_records pdf_text, trace ++ rejection_report pdf_text).
Proof.
  unfold parse_lines, accepted_records, rejection_report.
  by rewrite loop_spec, !data_lines_omap.
Qed.

(** [process_pdf_data] by what it accepts and what it reports. *)
Lemma process_pdf_data_spec pdf_text :
  process_pdf_data pdf_text
  = let trace :=
      st_write_total_lines (length (Py.split_on "010" pdf_text))
      :: rejection_report pdf_text in
    match accepted_records pdf_text with
    | [] => (trace ++ [st_error_no_valid_data], None)
    | _ :: _ =>
        (trace ++ [st_write_processed_entries (length (accepted_records pdf_text))],
         Some {| columns := dataset_columns; rows := accepted_records pdf_text |})
    end.
Proof.
  unfold process_pdf_data. rewrite parse_lines_spec. simpl.
  by destruct (accepted_records pdf_text).
Qed.

End Parser.

(** ** Claims on the parser *)

Section ParserClaims.

Lemma processed_data_spec pdf_text :
  processed_data pdf_text = accepted_records pdf_text.
Proof. unfold processed_data. by rewrite parse_lines_spec. Qed.

Lemma returned_frame pdf_text :
  snd (process_pdf_data pdf_text)
  = match processed_data pdf_text with
    | [] => None
    | _ :: _ =>
        Some {| columns := dataset_columns; rows := processed_data pdf_text |}
    end.
Proof.
  rewrite process_pdf_data_spec, processed_data_spec. simpl.
  by destruct (accepted_records pdf_text).
Qed.

Lemma accept_shape line r : accept line = Some r -> retained_shape r.
Proof.
  unfold accept. destruct (11 <=? _)%nat; [|done].
  destruct (coerce (Py.split line)) as [entry|] eqn:Hc; [|done].
  intros [= ->]. apply coerce_Ok in Hc as [Hname Hdays].
  pose proof (split_tokens line) as Htoks.
  rewrite Forall_lookup in Htoks. apply Htoks in Hname as [? ?].
  by repeat split.
Qed.

Lemma accepted_records_shape pdf_text :
  Forall retained_shape (accepted_records pdf_text).
Proof.
  unfold accepted_records.
  induction (drop 1 (Py.split_on "010" pdf_text)) as [|line ls IH]; simpl;
    [constructor|].
  destruct (accept (Py.strip line)) eqn:Ha; [|done].
  constructor; [by eapply accept_shape|done].
Qed.

(** C2, as amended: every entry the parser retains has a non-empty name
    without white space and exactly seven daily hours, which are integers, as
    the total hours are; the salaries are floats.  No sign is checked. *)
Theorem retained_records_shape (pdf_text : string) (df : DataFrame) :
  snd (process_pdf_data pdf_text) = Some df ->
  df.(columns) = dataset_columns
  /\ df.(rows) = processed_data pdf_text
  /\ Forall retained_shape df.(rows).
Proof.
  rewrite returned_frame. pose proof (accepted_records_shape pdf_text) as Hs.
  rewrite <- processed_data_spec in Hs.
  destruct (processed_data pdf_text); [done|]. by intros [= <-].
Qed.

Lemma retained_records_shape_witness :
  Forall retained_shape
    [{| Name := "Bob"; Total_Salary := S754_finite true 7036874417766400 (-46);
        Salary_per_hour := S754_finite false 5629499534213120 (-49);
        Days := [-1; 1; 1; 1; 1; 1; 1]; Total_Hours := 7 |}].
Proof.
  apply (retained_records_shape
           "Name Total Rate 1 2 3 4 5 6 7 Hours
Bob -100 10 -1 1 1 1 1 1 1 7"
           {| columns := dataset_columns;
              rows := [{| Name := "Bob";
                          Total_Salary := S754_finite true 7036874417766400 (-46);
                          Salary_per_hour := S754_finite false 5629499534213120 (-49);
                          Days := [-1; 1; 1; 1; 1; 1; 1]; Total_Hours := 7 |}] |}).
  vm_compute. reflexivity.
Defined.

(** C2 fails as stated: a line with a negative salary and a negative daily
    hour is retained. *)
Lemma negative_figures_retained :
  let r := {| Name := "Bob"; Total_Salary := S754_finite true 7036874417766400 (-46);
              Salary_per_hour := S754_finite false 5629499534213120 (-49);
              Days := [-1; 1; 1; 1; 1; 1; 1]; Total_Hours := 7 |} in
  snd (process_pdf_data
         "Name Total Rate 1 2 3 4 5 6 7 Hours
Bob -100 10 -1 1 1 1 1 1 1 7")
  = Some {| columns := dataset_columns; rows := [r] |}
  /\ Py.ge_zero (Py.Float r.(Total_Salary)) = false
  /\ r.(Days) !! 0%nat = Some (-1)
  /\ ~ EmployeeRecord_invariant r.
Proof.
  repeat split; try (vm_compute; reflexivity).
  intros (_ & Hsalary & _). vm_compute in Hsalary. discriminate.
Qed.

(** C3: [process_pdf_data] returns [None], after the call of [st.error], if
    and only if no entry was accepted, whatever was rejected; [main] then
    reports that it is unable to process the file and makes no call of the
    later stages. *)
Theorem empty_dataset_iff_nothing_accepted (pdf_text : string) :
  (snd (process_pdf_data pdf_text) = None
   <-> length (processed_data pdf_text) = 0%nat)
  /\ (snd (process_pdf_data pdf_text) = None ->
      fst (process_pdf_data pdf_text)
      = st_write_total_lines (length (Py.split_on "010" pdf_text))
        :: rejection_report pdf_text ++ [st_error_no_valid_data]
      /\ forall build threshold_hours button,
          main build (Some (Ok pdf_text)) threshold_hours button
          = [st_title "Salary Calculator App"; st_file_uploader;
             st_text (preview pdf_text)]
            ++ fst (process_pdf_data pdf_text)
            ++ [st_error_unable_to_process]).
Proof.
  split.
  - rewrite returned_frame. by destruct (processed_data pdf_text).
  - intros Hnone. split.
    + rewrite returned_frame, processed_data_spec in Hnone.
      rewrite process_pdf_data_spec. simpl.
      by destruct (accepted_records pdf_text).
    + intros build threshold_hours button. unfold main.
      destruct (process_pdf_data pdf_text) as [trace df]. simpl in *.
      by rewrite Hnone.
Qed.

Lemma empty_dataset_iff_nothing_accepted_witness :
    main (fun _ => Ok []) (Some (Ok "Name Total Rate 1 2 3 4 5 6 7 Hours

Bob notanumber 10 1 1 1 1 1 1 1 7")) 40 true
    = [st_title "Salary Calculator App"; st_file_uploader;
       st_text "Name Total Rate 1 2 3 4 5 6 7 Hours

Bob notanumber 10 1 1 1 1 1 1 1 7";
       st_write_total_lines 3;
       st_warning_skipping "Bob notanumber 10 1 1 1 1 1 1 1 7"
         (ValueError ToFloat "notanumber");
       st_error_no_valid_data;
       st_error_unable_to_process].
Proof.
  destruct (empty_dataset_iff_nothing_accepted
              "Name Total Rate 1 2 3 4 5 6 7 Hours

Bob notanumber 10 1 1 1 1 1 1 1 7") as [_ Hmain].
  destruct Hmain as [_ Hmain]; [vm_compute; reflexivity|].
  rewrite Hmain. vm_compute. reflexivity.
Defined.

(** C4, as amended: a line of fewer than 11 tokens is passed over without a
    word: it adds no entry and no call, no warning among them, and the loop
    goes on with the lines after it as if the line were not there. *)
Theorem short_line_skipped_silently
    (line : string) (st : loop_state) (before after : list string) :
  (length (Py.split line) < 11)%nat ->
  process_line st line = st
  /\ accept line = None
  /\ warning line = None
  /\ fold_left process_line (before ++ line :: after) st
     = fold_left process_line (before ++ after) st.
Proof.
  intros Hshort.
  assert (Hskip : forall st', process_line st' line = st').
  { intros [processed trace]. unfold process_line.
    destruct (Nat.leb_spec 11 (length (Py.split line))); [lia|done]. }
  assert (Hleb : (11 <=? length (Py.split line))%nat = false)
    by (apply Nat.leb_gt; lia).
  repeat split.
  - apply Hskip.
  - unfold accept. by rewrite Hleb.
  - unfold warning. by rewrite Hleb.
  - rewrite !fold_left_app. cbn [fold_left]. by rewrite Hskip.
Qed.

Lemma short_line_skipped_silently_witness :
  fold_left process_line
    ["Bob 100 10"; "Alice 2,000.00 25.00 8 8 8 8 8 0 0 40"] ([], [])
  = fold_left process_line ["Alice 2,000.00 25.00 8 8 8 8 8 0 0 40"] ([], []).
Proof.
  apply (short_line_skipped_silently "Bob 100 10" ([], []) []
           ["Alice 2,000.00 25.00 8 8 8 8 8 0 0 40"]).
  vm_compute. lia.
Defined.

(** C4 fails as stated: a line of three tokens leaves no trace, neither an
    entry nor a warning with a reason. *)
Lemma short_line_not_reported :
  (length (Py.split "Bob 100 10") < 11)%nat
  /\ fst (process_pdf_data
            "Name Total Rate 1 2 3 4 5 6 7 Hours
Bob 100 10
Alice 2,000.00 25.00 8 8 8 8 8 0 0 40")
     = [st_write_total_lines 3; st_write_processed_entries 1].
Proof. split; [vm_compute; lia|vm_compute; reflexivity]. Qed.

Lemma mapM_result_Ok {A B} (f : A -> result B) xs ys :
  mapM f xs = Ok ys -> Forall2 (fun x y => f x = Ok y) xs ys.
Proof.
  revert ys. induction xs as [|x xs IH]; intros ys; simpl.
  - intros [= <-]. constructor.
  - destruct (f x) as [y|] eqn:Hx; simpl; [|done].
    destruct (mapM f xs) as [ys'|]; simpl; [|done].
    intros [= <-]. constructor; [done|by apply IH].
Qed.

Lemma bind_Ok {A B} (r : result A) (k : A -> result B) b :
  r ≫= k = Ok b -> exists a, r = Ok a /\ k a = Ok b.
Proof. destruct r as [a|e]; simpl; intros H; [by exists a|done]. Qed.

(** The coercion of 11 tokens or more, by the tokens it reads. *)
Lemma coerce_eleven name p1 p2 hours p10 extra :
  length hours = 7%nat ->
  coerce (name :: p1 :: p2 :: hours ++ p10 :: extra)
  = (total_salary ← Py.float (Py.remove_char "," p1);
     salary_per_hour ← Py.float (Py.remove_char "," p2);
     days ← mapM Py.int hours;
     total_hours ← Py.int p10;
     Ok {| Name := name; Total_Salary := total_salary;
           Salary_per_hour := salary_per_hour; Days := days;
           Total_Hours := total_hours |}).
Proof.
  intros Hlen. do 7 (destruct hours as [|? hours]; [done|]).
  destruct hours; [clear Hlen|done]. reflexivity.
Qed.

Lemma coerce_fields name p1 p2 hours p10 extra r :
  length hours = 7%nat ->
  coerce (name :: p1 :: p2 :: hours ++ p10 :: extra) = Ok r ->
  r.(Name) = name
  /\ Py.float (Py.remove_char "," p1) = Ok r.(Total_Salary)
  /\ Py.float (Py.remove_char "," p2) = Ok r.(Salary_per_hour)
  /\ mapM Py.int hours = Ok r.(Days)
  /\ Py.int p10 = Ok r.(Total_Hours).
Proof.
  intros Hlen Hc. rewrite coerce_eleven in Hc by done.
  apply bind_Ok in Hc as (total_salary & H1 & Hc).
  apply bind_Ok in Hc as (salary_per_hour & H2 & Hc).
  apply bind_Ok in Hc as (days & H3 & Hc).
  apply bind_Ok in Hc as (total_hours & H4 & Hc).
  injection Hc as <-. done.
Qed.

(** C5, as amended: the comma is removed from the two salary tokens before
    they are parsed, so that a line is coerced as the same line without the
    commas of these two tokens; the eight hour tokens are parsed as they are,
    and a comma in one of them rejects the line.  A comma never delimits: a
    token with commas and no white space stays one token. *)
Theorem comma_stripped_from_salaries_only
    (name p1 p2 : string) (hours : list string) (p10 : string)
    (extra : list string) :
  length hours = 7%nat ->
  let parts := name :: p1 :: p2 :: hours ++ p10 :: extra in
  coerce parts
  = coerce (name :: Py.remove_char "," p1 :: Py.remove_char "," p2
                 :: hours ++ p10 :: extra)
  /\ (forall r, coerce parts = Ok r ->
        Py.float (Py.remove_char "," p1) = Ok r.(Total_Salary)
        /\ Py.float (Py.remove_char "," p2) = Ok r.(Salary_per_hour)
        /\ mapM Py.int hours = Ok r.(Days)
        /\ Py.int p10 = Ok r.(Total_Hours))
  /\ (Exists (fun h => has_char "," h = true) (hours ++ [p10]) ->
      exists what arg, coerce parts = Raise (ValueError what arg))
  /\ (forall tok, tok <> EmptyString -> no_space tok = true ->
      Py.split tok = [tok]).
Proof.
  intros Hlen parts. repeat split.
  - unfold parts. rewrite !coerce_eleven by done. by rewrite !remove_char_idem.
  - by eapply coerce_fields.
  - by eapply coerce_fields.
  - by eapply coerce_fields.
  - by eapply coerce_fields.
  - intros Hcomma.
    destruct (coerce parts) as [r|e] eqn:Hc.
    + exfalso. apply coerce_fields in Hc as (_ & _ & _ & Hh & Ht); [|done].
      apply mapM_result_Ok in Hh.
      apply Exists_app in Hcomma as [Hcomma|Hcomma].
      * apply Exists_exists in Hcomma as (h & Hin & Hc).
        apply list_elem_of_lookup in Hin as [i Hi].
        destruct (Forall2_lookup_l _ _ _ _ _ Hh Hi) as (n & _ & Hn).
        rewrite (int_comma h Hc) in Hn. done.
      * apply Exists_cons in Hcomma as [Hc|Hnil]; [|by inversion Hnil].
        rewrite (int_comma p10 Hc) in Ht. done.
    + apply coerce_raises in Hc as (what & arg & ->); [eauto|].
      unfold parts. simpl. rewrite length_app. simpl. lia.
  - apply split_no_space.
Qed.

Lemma comma_stripped_from_salaries_only_witness :
  coerce ["Alice"; "2,000.00"; "25.00"; "8"; "8"; "8"; "8"; "8"; "0"; "0"; "40"]
  = coerce ["Alice"; "2000.00"; "25.00"; "8"; "8"; "8"; "8"; "8"; "0"; "0"; "40"].
Proof.
  apply (comma_stripped_from_salaries_only "Alice" "2,000.00" "25.00"
           ["8"; "8"; "8"; "8"; "8"; "0"; "0"] "40" []).
  reflexivity.
Defined.

(** C5 fails as stated: the comma of an hour token is not removed, and the
    line is rejected for it. *)
Lemma comma_in_hours_rejected :
  coerce (Py.split "Bob 1,000 10 1 1 1 1 1 1 1 1,000")
  = Raise (ValueError ToInt "1,000")
  /\ coerce (Py.split "Bob 1,000 10 1,0 1 1 1 1 1 1 16")
     = Raise (ValueError ToInt "1,0")
  /\ process_pdf_data
       "Name Total Rate 1 2 3 4 5 6 7 Hours
Bob 1,000 10 1 1 1 1 1 1 1 1,000"
     = ([st_write_total_lines 2;
         st_warning_skipping "Bob 1,000 10 1 1 1 1 1 1 1 1,000"
           (ValueError ToInt "1,000");
         st_error_no_valid_data], None).
Proof. repeat split; vm_compute; reflexivity. Qed.

(** C6: the first line of the text never counts, whatever it holds: the
    function does on a text what it does on the same text with an empty
    first line, and a text of one line gives no entry. *)
Theorem first_line_dropped (first rest : string) :
  has_char "010" first = false ->
  process_pdf_data (first +:+ String "010" rest)
  = process_pdf_data (String "010" rest)
  /\ processed_data (first +:+ String "010" rest)
     = omap (fun line => accept (Py.strip line)) (Py.split_on "010" rest)
  /\ processed_data first = []
  /\ snd (process_pdf_data first) = None.
Proof.
  intros Hfirst.
  assert (Hlines : Py.split_on "010" (first +:+ String "010" rest)
                   = first :: Py.split_on "010" rest)
    by by apply split_on_first.
  assert (Hone : processed_data first = []).
  { rewrite processed_data_spec. unfold accepted_records.
    by rewrite split_on_no_sep. }
  repeat split.
  - rewrite !process_pdf_data_spec.
    unfold accepted_records, rejection_report. rewrite Hlines. done.
  - rewrite processed_data_spec. unfold accepted_records. by rewrite Hlines.
  - done.
  - rewrite returned_frame. by rewrite Hone.
Qed.

Lemma first_line_dropped_witness :
  accept (Py.strip "Alice 2,000.00 25.00 8 8 8 8 8 0 0 40") <> None
  /\ process_pdf_data "Alice 2,000.00 25.00 8 8 8 8 8 0 0 40
Bob 1,500 20 8 8 8 8 0 0 0 32"
     = process_pdf_data "
Bob 1,500 20 8 8 8 8 0 0 0 32".
Proof.
  split; [by vm_compute|].
  apply (first_line_dropped "Alice 2,000.00 25.00 8 8 8 8 8 0 0 40"
           "Bob 1,500 20 8 8 8 8 0 0 0 32").
  reflexivity.
Defined.

(** The entries that [omap] keeps, by the positions they come from: these
    increase, each kept entry comes from its position, and no position that
    gives an entry is left out. *)
Lemma omap_positions {A B} (f : A -> option B) (xs : list A) (off : nat) :
  exists idx : list nat,
    StronglySorted lt idx
    /\ Forall (fun i => (off <= i)%nat) idx
    /\ Forall2 (fun i y => exists x, xs !! (i - off)%nat = Some x /\ f x = Some y)
               idx (omap f xs)
    /\ (forall j x y, xs !! j = Some x -> f x = Some y -> (off + j)%nat ∈ idx).
Proof.
  revert off. induction xs as [|x xs IH]; intros off.
  { exists []. repeat split; try constructor. intros j x y Hj. done. }
  destruct (IH (S off)) as (idx & Hsorted & Hge & Hfrom & Hall).
  assert (Hshift : Forall2
            (fun i y => exists x0, (x :: xs) !! (i - off)%nat = Some x0
                                   /\ f x0 = Some y) idx (omap f xs)).
  { apply Forall2_same_length_lookup. split; [by eapply Forall2_length|].
    intros k i y Hi Hy. rewrite Forall_lookup in Hge. pose proof (Hge k i Hi).
    destruct (Forall2_lookup_l _ _ _ _ _ Hfrom Hi) as (y' & Hy' & x0 & Hx0 & Hf).
    assert (y' = y) as -> by congruence.
    exists x0. split; [|done].
    replace (i - off)%nat with (S (i - S off)) by lia. done. }
  simpl. destruct (f x) as [y|] eqn:Hx.
  - exists (off :: idx). repeat split.
    + constructor; [done|]. eapply Forall_impl; [exact Hge|]. simpl. lia.
    + constructor; [lia|]. eapply Forall_impl; [exact Hge|]. simpl. lia.
    + constructor; [|done]. exists x. rewrite Nat.sub_diag. done.
    + intros [|j] x0 y0 Hj Hf.
      * rewrite Nat.add_0_r. by left.
      * right. replace (off + S j)%nat with (S off + j)%nat by lia.
        by eapply Hall.
  - exists idx. repeat split.
    + done.
    + eapply Forall_impl; [exact Hge|]. simpl. lia.
    + done.
    + intros [|j] x0 y0 Hj Hf.
      * simpl in Hj. congruence.
      * replace (off + S j)%nat with (S off + j)%nat by lia. by eapply Hall.
Qed.

(** C7: the accepted entries stand in the order of the lines they come
    from.  There are line numbers, increasing and past the first line, one
    for each entry of [processed_data] in order, such that the entry is what
    the line of that number is coerced to; and every line that is coerced to
    an entry has its number among them.  The rows of the frame are these
    entries in this order. *)
Theorem parsing_preserves_line_order (pdf_text : string) :
  let lines := Py.split_on "010" pdf_text in
  exists idx : list nat,
    StronglySorted lt idx
    /\ Forall2 (fun i r => (1 <= i)%nat /\ exists line,
                    lines !! i = Some line /\ accept (Py.strip line) = Some r)
               idx (processed_data pdf_text)
    /\ (forall i line r, (1 <= i)%nat -> lines !! i = Some line ->
                         accept (Py.strip line) = Some r -> i ∈ idx)
    /\ (forall df, snd (process_pdf_data pdf_text) = Some df ->
                   df.(rows) = processed_data pdf_text).
Proof.
  intros lines.
  destruct (omap_positions (fun line => accept (Py.strip line)) (drop 1 lines) 1)
    as (idx & Hsorted & Hge & Hfrom & Hall).
  exists idx. repeat split.
  - done.
  - rewrite processed_data_spec. unfold accepted_records. fold lines.
    apply Forall2_same_length_lookup. split; [by eapply Forall2_length|].
    intros k i r Hi Hr. rewrite Forall_lookup in Hge. pose proof (Hge k i Hi).
    destruct (Forall2_lookup_l _ _ _ _ _ Hfrom Hi) as (r' & Hr' & line & Hl & Ha).
    assert (r' = r) as -> by congruence.
    split; [done|]. exists line. split; [|done].
    rewrite lookup_drop in Hl. by replace (1 + (i - 1))%nat with i in Hl by lia.
  - intros i line r Hi Hl Ha.
    replace i with (1 + (i - 1))%nat by lia. eapply Hall; [|done].
    rewrite lookup_drop. by replace (1 + (i - 1))%nat with i by lia.
  - intros df. rewrite returned_frame.
    destruct (processed_data pdf_text); [done|]. by intros [= <-].
Qed.

Lemma parsing_preserves_line_order_witness :
  {| columns := dataset_columns;
     rows := [{| Name := "Alice";
                 Total_Salary := S754_finite false 8796093022208000 (-42);
                 Salary_per_hour := S754_finite false 7036874417766400 (-48);
                 Days := [8; 8; 8; 8; 8; 0; 0]; Total_Hours := 40 |};
              {| Name := "Carol";
                 Total_Salary := S754_finite false 6597069766656000 (-42);
                 Salary_per_hour := S754_finite false 5629499534213120 (-48);
                 Days := [8; 8; 8; 8; 0; 0; 0]; Total_Hours := 32 |}] |}.(rows)
  = processed_data "Name Total Rate 1 2 3 4 5 6 7 Hours
Alice 2,000.00 25.00 8 8 8 8 8 0 0 40
Bob notanumber 10 1 1 1 1 1 1 1 7
Carol 1,500 20 8 8 8 8 0 0 0 32".
Proof.
  destruct (parsing_preserves_line_order "Name Total Rate 1 2 3 4 5 6 7 Hours
Alice 2,000.00 25.00 8 8 8 8 8 0 0 40
Bob notanumber 10 1 1 1 1 1 1 1 7
Carol 1,500 20 8 8 8 8 0 0 0 32") as (idx & _ & _ & _ & Hrows).
  apply Hrows. vm_compute. reflexivity.
Defined.

(** C10: a line of more than 11 tokens is not turned away for its length:
    its first 11 tokens are coerced and the others are not looked at, so that
    the entry, if these coerce, is the one of the first 11 tokens alone. *)
Theorem extra_tokens_ignored
    (line : string) (parts extra : list string) (st : loop_state) :
  Py.split line = parts ++ extra ->
  length parts = 11%nat ->
  coerce (Py.split line) = coerce parts
  /\ forall r, coerce parts = Ok r ->
       process_line st line = (st.1 ++ [r], st.2) /\ accept line = Some r.
Proof.
  intros Hsplit Hlen.
  assert (Hc : coerce (Py.split line) = coerce parts)
    by (rewrite Hsplit; by apply coerce_app).
  assert (Hleb : (11 <=? length (Py.split line))%nat = true).
  { apply Nat.leb_le. rewrite Hsplit, length_app. lia. }
  split; [done|]. intros r Hr. destruct st as [processed trace].
  unfold process_line, accept. rewrite Hleb, Hc, Hr. done.
Qed.

Lemma extra_tokens_ignored_witness :
  coerce (Py.split "Carol 1,500 20 8 8 8 8 0 0 0 32 extra tokens 9,9")
  = coerce ["Carol"; "1,500"; "20"; "8"; "8"; "8"; "8"; "0"; "0"; "0"; "32"].
Proof.
  apply (extra_tokens_ignored
           "Carol 1,500 20 8 8 8 8 0 0 0 32 extra tokens 9,9"
           ["Carol"; "1,500"; "20"; "8"; "8"; "8"; "8"; "0"; "0"; "0"; "32"]
           ["extra"; "tokens"; "9,9"] ([], [])); reflexivity.
Defined.

End ParserClaims.

(** ** Floats *)

Section Floats.

Lemma digits2_log2 m : Zpos (digits2_pos m) = Z.log2 (Zpos m) + 1.
Proof.
  assert (Hsize : forall p, digits2_pos p = Pos.size p)
    by (induction p; simpl; congruence).
  destruct m; simpl; rewrite ?Hsize; lia.
Qed.

Lemma shr_1_div2 mrs : 0 <= shr_m mrs -> shr_m (shr_1 mrs) = shr_m mrs / 2.
Proof.
  rewrite <- Z.div2_div.
  destruct mrs as [[|[m|m|]|m] r s]; simpl; intros H; done || lia.
Qed.

Lemma iter_shr_1 n mrs :
  0 <= shr_m mrs -> shr_m (SpecFloat.iter_pos shr_1 n mrs) = shr_m mrs / 2 ^ Zpos n.
Proof.
  revert mrs. induction n as [n IH|n IH|]; intros mrs Hm; simpl SpecFloat.iter_pos.
  - assert (H0 : 0 <= shr_m mrs / 2) by (apply Z.div_pos; lia).
    assert (H1 : shr_m (shr_1 mrs) = shr_m mrs / 2) by by apply shr_1_div2.
    assert (H2 : shr_m (SpecFloat.iter_pos shr_1 n (shr_1 mrs))
                 = shr_m mrs / 2 / 2 ^ Zpos n)
      by (rewrite IH; rewrite H1; done).
    rewrite IH; rewrite H2; [|apply Z.div_pos; [done|lia]].
    rewrite !Zdiv.Zdiv_Zdiv by lia.
    assert (Hp : 2 ^ Zpos n~1 = 2 * 2 ^ Zpos n * 2 ^ Zpos n).
    { replace (Zpos n~1) with (1 + Zpos n + Zpos n) by lia.
      rewrite !Z.pow_add_r by lia. lia. }
    rewrite Hp. f_equal; lia.
  - assert (H2 : shr_m (SpecFloat.iter_pos shr_1 n mrs)
                 = shr_m mrs / 2 ^ Zpos n) by by apply IH.
    rewrite IH; rewrite H2; [|apply Z.div_pos; [done|lia]].
    rewrite !Zdiv.Zdiv_Zdiv by lia.
    assert (Hp : 2 ^ Zpos n~0 = 2 ^ Zpos n * 2 ^ Zpos n).
    { replace (Zpos n~0) with (Zpos n + Zpos n) by lia.
      rewrite !Z.pow_add_r by lia. lia. }
    rewrite Hp. f_equal; lia.
  - by apply shr_1_div2.
Qed.

Lemma shr_record_of_loc_m m l : shr_m (shr_record_of_loc m l) = m.
Proof. by destruct l as [|[]]. Qed.

(** A mantissa above the least exponent stays positive when it is shifted to
    its place, and loses no magnitude. *)
Lemma shr_fexp_pos (m : positive) (e : Z) l :
  -1074 < Z.log2 (Zpos m) + 1 + e ->
  exists m',
    shr_m (fst (shr_fexp 53 1024 (Zpos m) e l)) = Zpos m'
    /\ Z.log2 (Zpos m') + snd (shr_fexp 53 1024 (Zpos m) e l)
       = Z.log2 (Zpos m) + e
    /\ snd (shr_fexp 53 1024 (Zpos m) e l)
       = Z.max e (fexp 53 1024 (Z.log2 (Zpos m) + 1 + e)).
Proof.
  intros Hmag. unfold shr_fexp, shr. simpl Zdigits2. rewrite digits2_log2.
  pose proof (Z.log2_nonneg (Zpos m)) as Hlog.
  destruct (fexp 53 1024 (Z.log2 (Zpos m) + 1 + e) - e) as [|n|n] eqn:Hn;
    simpl fst; simpl snd;
    try (exists m; rewrite shr_record_of_loc_m; repeat split; lia).
  assert (Hlt : Zpos n <= Z.log2 (Zpos m)).
  { unfold fexp, emin in Hn. lia. }
  rewrite iter_shr_1, shr_record_of_loc_m by (rewrite shr_record_of_loc_m; lia).
  rewrite <- Z.shiftr_div_pow2 by lia.
  assert (Hq : Z.log2 (Z.shiftr (Zpos m) (Zpos n)) = Z.log2 (Zpos m) - Zpos n).
  { rewrite Z.log2_shiftr by lia. lia. }
  assert (Hpos : 0 < Z.shiftr (Zpos m) (Zpos n)).
  { rewrite Z.shiftr_div_pow2 by lia. apply Z.div_str_pos. split; [lia|].
    etransitivity; [|apply Z.log2_spec; lia].
    apply Z.pow_le_mono_r; lia. }
  destruct (Z.shiftr (Zpos m) (Zpos n)) as [|m'|]; [lia| |lia].
  exists m'. repeat split; lia.
Qed.

Lemma round_nearest_even_pos (m : positive) l :
  exists m', round_nearest_even (Zpos m) l = Zpos m'
             /\ Z.log2 (Zpos m) <= Z.log2 (Zpos m') <= Z.log2 (Zpos m) + 1.
Proof.
  assert (Hup : exists m', Zpos m + 1 = Zpos m'
                  /\ Z.log2 (Zpos m) <= Z.log2 (Zpos m') <= Z.log2 (Zpos m) + 1).
  { exists (m + 1)%positive. split; [lia|]. split.
    - apply Z.log2_le_mono. lia.
    - etransitivity; [apply (Z.log2_le_mono _ (2 * Zpos m)); lia|].
      rewrite Z.log2_double by lia. lia. }
  assert (Hsame : exists m', Zpos m = Zpos m'
                  /\ Z.log2 (Zpos m) <= Z.log2 (Zpos m') <= Z.log2 (Zpos m) + 1)
    by (exists m; split; [done|lia]).
  destruct l as [|[]]; unfold round_nearest_even; try done.
  by destruct (Z.even (Zpos m)).
Qed.

(** Rounding a positive mantissa above the least exponent gives a finite
    float of no lesser magnitude or an infinity, of the sign asked for; it
    gives no infinity when the magnitude is below [2^1023]. *)
Lemma binary_round_aux_pos s (m : positive) e l :
  -1074 < Z.log2 (Zpos m) + 1 + e ->
  match binary_round_aux 53 1024 s (Zpos m) e l with
  | S754_finite s' m' e' =>
      s' = s /\ Z.log2 (Zpos m) + e <= Z.log2 (Zpos m') + e'
  | S754_infinity s' =>
      s' = s /\ (971 < e \/ 1023 < Z.log2 (Zpos m) + 1 + e)
  | _ => False
  end.
Proof.
  intros Hmag. unfold binary_round_aux.
  destruct (shr_fexp_pos m e l Hmag) as (m1 & Hm1 & Hmag1 & He1).
  destruct (shr_fexp 53 1024 (Zpos m) e l) as [mrs1 e1].
  cbn [fst snd] in Hm1, Hmag1, He1.
  rewrite Hm1.
  destruct (round_nearest_even_pos m1 (loc_of_shr_record mrs1))
    as (m2 & -> & Hmag2).
  destruct (shr_fexp_pos m2 e1 loc_Exact) as (m3 & Hm3 & Hmag3 & He3); [lia|].
  destruct (shr_fexp 53 1024 (Zpos m2) e1 loc_Exact) as [mrs3 e3].
  cbn [fst snd] in Hm3, Hmag3, He3. rewrite Hm3.
  destruct (Z.leb_spec e3 (1024 - 53)); [split; [done|lia]|].
  split; [done|]. unfold fexp, emin in He1, He3. lia.
Qed.

(** Rounding a non-negative mantissa gives no NaN and keeps the sign. *)
Lemma binary_round_aux_signed s m e l :
  0 <= m -> signed s (binary_round_aux 53 1024 s m e l).
Proof.
  intros Hm. unfold binary_round_aux.
  assert (Hshr : forall m0 e0 l0, 0 <= m0 ->
                   0 <= shr_m (fst (shr_fexp 53 1024 m0 e0 l0))).
  { intros m0 e0 l0 Hm0. unfold shr_fexp, shr.
    destruct (fexp 53 1024 (Zdigits2 m0 + e0) - e0); simpl;
      rewrite ?iter_shr_1, ?shr_record_of_loc_m
        by (rewrite shr_record_of_loc_m; done); try done.
    apply Z.div_pos; lia. }
  pose proof (Hshr m e l Hm) as H1.
  destruct (shr_fexp 53 1024 m e l) as [mrs1 e1]. simpl in H1.
  assert (H2 : 0 <= round_nearest_even (shr_m mrs1) (loc_of_shr_record mrs1)).
  { destruct (loc_of_shr_record mrs1) as [|[]]; simpl; try lia.
    destruct (Z.even (shr_m mrs1)); lia. }
  pose proof (Hshr _ e1 loc_Exact H2) as H3.
  destruct (shr_fexp 53 1024 _ e1 loc_Exact) as [mrs3 e3]. simpl in H3.
  destruct (shr_m mrs3); [done| |lia]. by destruct (e3 <=? 1024 - 53).
Qed.

Lemma iter_xO p d : Zpos (Pos.iter xO p d) = Zpos p * 2 ^ Zpos d.
Proof.
  induction d as [|d IH] using Pos.peano_ind; [simpl; lia|].
  rewrite Pos.iter_succ, Pos2Z.inj_xO, IH, Pos2Z.inj_succ, Z.pow_succ_r by lia.
  lia.
Qed.

(** Rounding a positive integer gives a finite float that is at least 1, or
    an infinity when the integer is [2^1023] at least. *)
Lemma binary_round_int s p :
  match binary_round 53 1024 s p 0 with
  | S754_finite s' m e => s' = s /\ 0 <= Z.log2 (Zpos m) + e
  | S754_infinity s' => s' = s /\ 1023 <= Z.log2 (Zpos p)
  | _ => False
  end.
Proof.
  unfold binary_round, shl_align.
  pose proof (Z.log2_nonneg (Zpos p)) as Hp.
  pose proof (digits2_log2 p) as Hdigits.
  destruct (fexp 53 1024 (Zpos (digits2_pos p) + 0) - 0) as [|d|d] eqn:Hd.
  - pose proof (binary_round_aux_pos s p 0 loc_Exact) as H.
    destruct (binary_round_aux _ _ _ _ _ _); try (apply H; lia);
      destruct H as [-> H]; try lia; split; try done; lia.
  - pose proof (binary_round_aux_pos s p 0 loc_Exact) as H.
    destruct (binary_round_aux _ _ _ _ _ _); try (apply H; lia);
      destruct H as [-> H]; try lia; split; try done; lia.
  - assert (Hmag : Z.log2 (Zpos (Pos.iter xO p d))
                   + fexp 53 1024 (Zpos (digits2_pos p) + 0) = Z.log2 (Zpos p)).
    { rewrite iter_xO, Z.log2_mul_pow2 by lia. lia. }
    assert (Hlow : -1074 <= fexp 53 1024 (Zpos (digits2_pos p) + 0) < 0)
      by (unfold fexp, emin in *; lia).
    pose proof (binary_round_aux_pos s (Pos.iter xO p d)
                  (fexp 53 1024 (Zpos (digits2_pos p) + 0)) loc_Exact) as H.
    destruct (binary_round_aux _ _ _ _ _ _); try (apply H; lia);
      destruct H as [-> H]; try lia; split; try done; lia.
Qed.

(** An int that is not zero converts to a finite float of its sign and of
    magnitude 1 at least, when it converts. *)
Lemma float_of_int_finite n k :
  n <> 0 -> Py.float_of_int n = Ok k ->
  exists m e, k = S754_finite (n <? 0) m e /\ 0 <= Z.log2 (Zpos m) + e.
Proof.
  intros Hn. unfold Py.float_of_int, binary_normalize.
  destruct n as [|p|p]; [done| |].
  - pose proof (binary_round_int false p) as H.
    destruct (binary_round 53 1024 false p 0);
      try done; intros [= <-]; destruct H as [-> H]; eauto.
  - pose proof (binary_round_int true p) as H.
    destruct (binary_round 53 1024 true p 0);
      try done; intros [= <-]; destruct H as [-> H]; eauto.
Qed.

(** Every int below [2^1023] in absolute value converts to a float. *)
Lemma float_of_int_converts n :
  Z.abs n < 2 ^ 1023 -> exists k, Py.float_of_int n = Ok k.
Proof.
  intros Hn. unfold Py.float_of_int, binary_normalize.
  assert (Hlog : forall p, Zpos p < 2 ^ 1023 -> Z.log2 (Zpos p) < 1023)
    by (intros p Hp; apply Z.log2_lt_pow2; lia).
  destruct n as [|p|p]; [by eexists| |].
  - pose proof (binary_round_int false p) as H. pose proof (Hlog p) as Hp.
    destruct (binary_round 53 1024 false p 0); try (by eexists); lia.
  - pose proof (binary_round_int true p) as H. pose proof (Hlog p) as Hp.
    destruct (binary_round 53 1024 true p 0); try (by eexists); lia.
Qed.

Lemma float_of_int_0 : Py.float_of_int 0 = Ok (S754_zero false).
Proof. reflexivity. Qed.

(** The product of a positive int and a float that is at least 0 is at
    least 0. *)
Lemma mul_int_float_ge_zero n x y :
  0 < n -> Py.ge_zero (Py.Float x) = true ->
  Py.mul_int_float n x = Ok y -> Py.ge_zero (Py.Float y) = true.
Proof.
  intros Hn Hx. unfold Py.mul_int_float.
  intros (k & Hk & Hy)%bind_Ok. injection Hy as <-.
  apply float_of_int_finite in Hk as (m & e & -> & _); [|lia].
  replace (n <? 0) with false by lia.
  destruct x as [sx|[]| |[] mx ex]; try done.
  simpl SFmul.
  assert (Hs : signed false (binary_round_aux 53 1024 false (Zpos (m * mx))
                                             (e + ex) loc_Exact))
    by (apply binary_round_aux_signed; lia).
  destruct (binary_round_aux _ _ _ _ _ _) as [?|?| |? ? ?]; simpl in Hs;
    by subst.
Qed.

(** The product of a positive int and a binary64 float is zero when the
    float is, and only then: a product of magnitude above the least is not
    rounded to zero. *)
Lemma mul_int_float_eq_zero n x y :
  0 < n -> valid_binary 53 1024 x = true ->
  Py.mul_int_float n x = Ok y ->
  Py.eq_zero (Py.Float y) = Py.eq_zero (Py.Float x).
Proof.
  intros Hn Hx. unfold Py.mul_int_float.
  intros (k & Hk & Hy)%bind_Ok. injection Hy as <-.
  apply float_of_int_finite in Hk as (m & e & -> & Hmag); [|lia].
  destruct x as [sx|sx| |sx mx ex]; try done;
    [by destruct (n <? 0), sx|].
  simpl SFmul. simpl in Hx. unfold bounded, canonical_mantissa in Hx.
  apply andb_prop in Hx as [Hcan _]. apply Z.eqb_eq in Hcan.
  assert (Hex : -1074 <= ex) by (unfold fexp, emin in Hcan; lia).
  pose proof (Z.log2_nonneg (Zpos mx)) as Hmx.
  pose proof (Z.log2_mul_below (Zpos m) (Zpos mx)) as Hbelow.
  pose proof (binary_round_aux_pos (xorb (n <? 0) sx) (m * mx) (e + ex) loc_Exact)
    as Hround.
  rewrite Pos2Z.inj_mul in Hround.
  change (Zpos (m * mx)) with (Zpos m * Zpos mx) in *.
  replace (Py.eq_zero (Py.Float (S754_finite sx mx ex))) with false
    by by destruct sx.
  destruct (binary_round_aux _ _ _ _ _ _) as [?|[]| |[] ? ?]; try done;
    exfalso; apply Hround; lia.
Qed.

End Floats.

(** ** Claims on the calculator *)

Section Calculator.

Lemma deduction_result_Ok threshold_hours row :
  shortfall_converts threshold_hours row ->
  exists r, deduction_result threshold_hours row = Ok r
            /\ follows_policy threshold_hours row r.
Proof.
  intros Hconv. unfold deduction_result.
  destruct (Z.leb_spec threshold_hours row.(Total_Hours)) as [Hge|Hlt].
  - simpl. eexists. split; [reflexivity|].
    repeat split; simpl; try done. lia.
  - destruct (Hconv Hlt) as [k Hk]. unfold Py.mul_int_float. rewrite Hk. simpl.
    eexists. split; [reflexivity|].
    repeat split; simpl; try done; [lia|]. intros _. by exists k.
Qed.

Lemma follows_policy_sign threshold_hours row r :
  follows_policy threshold_hours row r -> deduction_sign threshold_hours row r.
Proof.
  intros (_ & _ & _ & _ & Hzero & Hprod & _).
  assert (Hmul : forall k, row.(Total_Hours) < threshold_hours ->
            Py.float_of_int (threshold_hours - row.(Total_Hours)) = Ok k ->
            Py.mul_int_float (threshold_hours - row.(Total_Hours))
                             row.(Salary_per_hour)
            = Ok (SFmul 53 1024 k row.(Salary_per_hour))).
  { intros k _ Hk. unfold Py.mul_int_float. by rewrite Hk. }
  repeat split.
  - intros Hlt Hrate. destruct (Hprod Hlt) as (k & Hk & ->).
    eapply mul_int_float_ge_zero; [|exact Hrate|by apply Hmul]. lia.
  - intros Hge. by rewrite (Hzero Hge).
  - intros Hz. destruct (Z.le_gt_cases threshold_hours row.(Total_Hours))
      as [Hge|Hlt]; [by left|right].
    destruct (Hprod ltac:(lia)) as (k & Hk & Hd). rewrite Hd in Hz.
    erewrite <- mul_int_float_eq_zero; [exact Hz|..|apply Hmul; [lia|done]];
      [lia|done].
  - intros [Hge|Hrate]; [by rewrite (Hzero Hge)|].
    destruct (Z.le_gt_cases threshold_hours row.(Total_Hours))
      as [Hge|Hlt]; [by rewrite (Hzero Hge)|].
    destruct (Hprod ltac:(lia)) as (k & Hk & ->).
    erewrite mul_int_float_eq_zero; [exact Hrate|..|apply Hmul; [lia|done]];
      [lia|done].
Qed.

(** C1, as amended: when the shortfall of hours of every row converts to a
    float, as every shortfall below [2^1023] does ([float_of_int_converts]),
    [calculate_deductions] returns one result per row, in the order of the
    rows; the deduction is the int 0 when the worked hours reach the
    threshold, else the float product of the shortfall and the hourly rate;
    the final salary is the total salary less the deduction.  The deduction
    is at least 0 below the threshold when the hourly rate is at least 0, and
    it is zero exactly when the worked hours reach the threshold or the
    hourly rate is zero. *)
Theorem deduction_policy (df : DataFrame) (threshold_hours : Z) :
  Forall (shortfall_converts threshold_hours) df.(rows) ->
  exists results,
    deduction_results df threshold_hours = Ok results
    /\ calculate_deductions df threshold_hours = Ok (frame_of_results results)
    /\ length (cells (frame_of_results results)) = length df.(rows)
    /\ Forall2 (fun row r => follows_policy threshold_hours row r
                             /\ deduction_sign threshold_hours row r)
               df.(rows) results.
Proof.
  intros Hconv.
  assert (Hres : exists results,
            mapM (deduction_result threshold_hours) df.(rows) = Ok results
            /\ Forall2 (fun row r => follows_policy threshold_hours row r
                                     /\ deduction_sign threshold_hours row r)
                       df.(rows) results).
  { induction Hconv as [|row rows Hrow _ IH]; [by exists []|].
    destruct IH as (results & Hresults & Hall).
    destruct (deduction_result_Ok threshold_hours row Hrow) as (r & Hr & Hp).
    exists (r :: results). simpl. rewrite Hr. simpl. rewrite Hresults. simpl.
    split; [done|]. constructor; [|done].
    split; [done|by apply follows_policy_sign]. }
  destruct Hres as (results & Hresults & Hall).
  exists results. unfold calculate_deductions, deduction_results.
  rewrite Hresults. repeat split; try done.
  apply Forall2_length in Hall. rewrite Hall.
  destruct results; simpl; [done|]. by rewrite length_fmap.
Qed.

Lemma deduction_policy_witness :
  exists results,
    deduction_results
      {| columns := dataset_columns;
         rows := [{| Name := "Alice";
                     Total_Salary := S754_finite false 8796093022208000 (-42);
                     Salary_per_hour := S754_finite false 7036874417766400 (-48);
                     Days := [8; 8; 8; 8; 8; 0; 0]; Total_Hours := 40 |};
                  {| Name := "Carol";
                     Total_Salary := S754_finite false 6597069766656000 (-42);
                     Salary_per_hour := S754_finite false 5629499534213120 (-48);
                     Days := [8; 8; 8; 8; 0; 0; 0]; Total_Hours := 45 |}] |} 45
    = Ok results.
Proof.
  destruct (deduction_policy
              {| columns := dataset_columns;
                 rows := [{| Name := "Alice";
                             Total_Salary := S754_finite false 8796093022208000 (-42);
                             Salary_per_hour := S754_finite false 7036874417766400 (-48);
                             Days := [8; 8; 8; 8; 8; 0; 0]; Total_Hours := 40 |};
                          {| Name := "Carol";
                             Total_Salary := S754_finite false 6597069766656000 (-42);
                             Salary_per_hour := S754_finite false 5629499534213120 (-48);
                             Days := [8; 8; 8; 8; 0; 0; 0]; Total_Hours := 45 |}] |}
              45) as (results & Hresults & _).
  - repeat constructor; intros _; eexists; vm_compute; reflexivity.
  - exists results. exact Hresults.
Defined.

(** C1 fails as stated.  With an hourly rate of 0 the deduction is zero
    below the threshold; with a negative hourly rate, which the parser lets
    through, it is negative; and with a threshold of [10^400] hours the
    shortfall is too large for a float and the function raises. *)
Lemma deduction_zero_below_threshold :
  let bob rate := {| Name := "Bob";
                     Total_Salary := S754_finite false 7036874417766400 (-46);
                     Salary_per_hour := rate;
                     Days := [1; 1; 1; 1; 1; 1; 1]; Total_Hours := 7 |} in
  let free := bob (S754_zero false) in
  let owing := bob (S754_finite true 5629499534213120 (-50)) in
  snd (process_pdf_data
         "Name Total Rate 1 2 3 4 5 6 7 Hours
Bob 100 0 1 1 1 1 1 1 1 7
Bob 100 -5 1 1 1 1 1 1 1 7")
  = Some {| columns := dataset_columns; rows := [free; owing] |}
  /\ deduction_results {| columns := dataset_columns; rows := [free; owing] |} 40
     = Ok [{| res_Name := "Bob";
              res_Total_Salary := S754_finite false 7036874417766400 (-46);
              Worked_Hours := 7; Threshold_Hours := 40;
              Deduction := Py.Float (S754_zero false);
              Final_Salary := S754_finite false 7036874417766400 (-46) |};
           {| res_Name := "Bob";
              res_Total_Salary := S754_finite false 7036874417766400 (-46);
              Worked_Hours := 7; Threshold_Hours := 40;
              Deduction := Py.Float (S754_finite true 5805421394657280 (-45));
              Final_Salary := S754_finite false 4661929301770240 (-44) |}]
  /\ Py.eq_zero (Py.Float (S754_zero false)) = true
  /\ Py.ge_zero (Py.Float (S754_finite true 5805421394657280 (-45))) = false
  /\ 7 < 40
  /\ calculate_deductions {| columns := dataset_columns; rows := [alice] |}
                          (10 ^ 400)
     = Raise OverflowError.
Proof. repeat split; vm_compute; reflexivity. Qed.

End Calculator.

(** ** Claims on the renderer *)

Section Renderer.

(** *** The format [.2f] against the reading of its text *)

Lemma to_uint_nonnil n : N.to_uint n <> Decimal.Nil.
Proof. destruct n; [done|]. apply DecimalPos.Unsigned.to_uint_nonnil. Qed.

(** The digits that [decimal] writes for [n] read as [n], and have no
    leading zero. *)
Lemma read_decimal_decimal n : read_decimal (Py.decimal n) = Some n.
Proof.
  unfold read_decimal, Py.decimal.
  rewrite NilZero.usu by apply to_uint_nonnil.
  simpl. f_equal. apply DecimalN.Unsigned.of_to.
Qed.

Lemma unorm_no_leading_zero d :
  no_leading_zero (NilZero.string_of_uint (Decimal.unorm d)).
Proof.
  unfold Decimal.unorm.
  pose proof (DecimalFacts.nzhead_nonzero d) as Hnz.
  destruct (Decimal.nzhead d) as [|u|u|u|u|u|u|u|u|u|u]; intros r Hr;
    try discriminate Hr.
  - by injection Hr as <-.
  - by destruct (Hnz u).
Qed.

Lemma decimal_no_leading_zero n : no_leading_zero (Py.decimal n).
Proof.
  unfold Py.decimal.
  rewrite <- (DecimalN.Unsigned.of_to n) at 1.
  rewrite DecimalN.Unsigned.to_of. apply unorm_no_leading_zero.
Qed.

(** The two digits written for a number below 100 read as that number. *)
Lemma two_digits_reads n :
  (n < 100)%N ->
  String.length (Py.two_digits n) = 2%nat
  /\ read_decimal (Py.two_digits n) = Some n.
Proof.
  intros Hn.
  assert (Hall : forallb (fun k => reads_two_digits (N.of_nat k)
                                     (Py.two_digits (N.of_nat k)))
                         (seq 0 100) = true) by (vm_compute; reflexivity).
  rewrite forallb_forall in Hall. specialize (Hall (N.to_nat n)).
  rewrite N2Nat.id in Hall.
  apply andb_prop in Hall as [Hlen Hread]; [|apply in_seq; lia].
  split; [by apply Nat.eqb_eq|].
  destruct (read_decimal (Py.two_digits n)) as [k|]; [|done].
  by apply N.eqb_eq in Hread as ->.
Qed.

(** [hundredths] rounds to the nearest hundredth, ties to even. *)
Lemma hundredths_nearest m e : nearest_hundredth m e (Py.hundredths m e).
Proof.
  unfold nearest_hundredth, Py.hundredths.
  destruct (Z.leb_spec 0 e) as [He|He].
  - rewrite Z.max_l, Z.max_r by lia. change (2 ^ 0) with 1.
    assert (0 < 2 ^ e) by (apply Z.pow_pos_nonneg; lia).
    rewrite Z2N.id by nia. split; [|intros Htie]; lia.
  - rewrite Z.max_r, Z.max_l by lia. change (2 ^ 0) with 1.
    set (d := 2 ^ (- e)). set (a := Z.pos m * 100).
    assert (Hd : 0 < d) by (apply Z.pow_pos_nonneg; lia).
    pose proof (Z.div_mod a d ltac:(lia)) as Hdiv.
    pose proof (Z.mod_pos_bound a d Hd) as Hmod.
    assert (Hq : 0 <= a / d) by (apply Z.div_pos; lia).
    set (q := a / d) in *. set (r := a mod d) in *.
    replace (a * 1) with a by lia.
    destruct (Z.compare_spec (2 * r) d) as [Heq|Hlt|Hgt].
    + destruct (Z.even q) eqn:Hev.
      * rewrite Z2N.id by lia. replace (a - q * d) with r by lia.
        split; [lia|done].
      * rewrite Z2N.id by lia. replace (a - (q + 1) * d) with (r - d) by lia.
        split; [lia|]. intros _. rewrite Z.even_add, Hev. done.
    + rewrite Z2N.id by lia. replace (a - q * d) with r by lia. lia.
    + rewrite Z2N.id by lia. replace (a - (q + 1) * d) with (r - d) by lia. lia.
Qed.

Lemma fixed2_text neg h : fixed_point_text neg h (Py.fixed2 neg h).
Proof.
  exists (Py.decimal (h / 100)), (Py.two_digits (h mod 100)).
  destruct (two_digits_reads (h mod 100)%N) as [Hlen Hread];
    [apply N.mod_lt; lia|].
  split; [done|]. split; [apply read_decimal_decimal|].
  split; [apply decimal_no_leading_zero|]. done.
Qed.

(** The format [.2f] of a float is a rendering of it. *)
Lemma format_2f_rendering x : rendering x (Py.format_2f x).
Proof.
  destruct x as [s|s| |s m e]; simpl; try done.
  - apply fixed2_text.
  - exists (Py.hundredths m e). split; [apply hundredths_nearest|apply fixed2_text].
Qed.

(** A float has one rendering: the nearest hundredth is unique, digits
    without a leading zero are determined by their number, and so are digits
    of a given length. *)
Lemma nearest_hundredth_unique m e h h' :
  nearest_hundredth m e h -> nearest_hundredth m e h' -> h = h'.
Proof.
  unfold nearest_hundredth.
  set (num := Z.pos m * 100 * 2 ^ Z.max e 0). set (den := 2 ^ Z.max (- e) 0).
  assert (Hden : 0 < den) by (apply Z.pow_pos_nonneg; lia).
  intros [Hh Heven] [Hh' Heven'].
  assert (Hlt : forall k k' : Z,
             k < k' ->
             2 * Z.abs (num - k * den) <= den ->
             (2 * Z.abs (num - k * den) = den -> Z.even k = true) ->
             2 * Z.abs (num - k' * den) <= den ->
             (2 * Z.abs (num - k' * den) = den -> Z.even k' = true) ->
             False).
  { intros k k' Hk H1 E1 H2 E2.
    assert (Hstep : den <= (k' - k) * den) by nia.
    assert (Hone : k' = k + 1) by nia.
    subst k'.
    assert (Ek : Z.even k = true) by (apply E1; lia).
    assert (Ek' : Z.even (k + 1) = true) by (apply E2; lia).
    rewrite Z.even_add, Ek in Ek'. discriminate Ek'. }
  destruct (Z.lt_total (Z.of_N h) (Z.of_N h')) as [Hc|[Hc|Hc]].
  - destruct (Hlt _ _ Hc); done.
  - lia.
  - destruct (Hlt _ _ Hc); done.
Qed.

Lemma read_decimal_canonical s w :
  read_decimal s = Some w -> no_leading_zero s -> s = Py.decimal w.
Proof.
  unfold read_decimal, Py.decimal. intros Hread Hcanon.
  destruct (NilZero.uint_of_string s) as [d|] eqn:Hd; [|done].
  injection Hread as <-.
  pose proof (NilZero.uint_of_string_nonnil s) as Hnil.
  apply NilZero.sus in Hd. subst s.
  rewrite DecimalN.Unsigned.to_of.
  destruct d as [|u|u|u|u|u|u|u|u|u|u]; try done.
  specialize (Hcanon _ eq_refl). by destruct u.
Qed.

Lemma string_of_uint_length d :
  String.length (NilEmpty.string_of_uint d) = Decimal.nb_digits d.
Proof. induction d; simpl; congruence. Qed.

Lemma read_decimal_same_length s s' f :
  String.length s = String.length s' ->
  read_decimal s = Some f -> read_decimal s' = Some f -> s = s'.
Proof.
  unfold read_decimal. intros Hlen Hs Hs'.
  destruct (NilZero.uint_of_string s) as [d|] eqn:Hd; [|done].
  destruct (NilZero.uint_of_string s') as [d'|] eqn:Hd'; [|done].
  injection Hs as Hs. injection Hs' as Hs'.
  assert (Hn : d <> Decimal.Nil)
    by (intros ->; by apply (NilZero.uint_of_string_nonnil s)).
  assert (Hn' : d' <> Decimal.Nil)
    by (intros ->; by apply (NilZero.uint_of_string_nonnil s')).
  apply NilZero.sus in Hd, Hd'.
  assert (He : NilZero.string_of_uint d = NilEmpty.string_of_uint d)
    by by destruct d.
  assert (He' : NilZero.string_of_uint d' = NilEmpty.string_of_uint d')
    by by destruct d'.
  rewrite He in Hd. rewrite He' in Hd'. subst s s'.
  rewrite !string_of_uint_length in Hlen.
  assert (Hu : Decimal.unorm d = Decimal.unorm d')
    by (apply DecimalN.Unsigned.of_inj; congruence).
  rewrite <- (DecimalFacts.iter_D0_unorm d Hn).
  rewrite <- (DecimalFacts.iter_D0_unorm d' Hn').
  by rewrite Hlen, Hu.
Qed.

Lemma fixed_point_text_unique neg h t t' :
  fixed_point_text neg h t -> fixed_point_text neg h t' -> t = t'.
Proof.
  intros (whole & frac & -> & Hw & Hc & Hl & Hf)
         (whole' & frac' & -> & Hw' & Hc' & Hl' & Hf').
  rewrite (read_decimal_canonical whole _ Hw Hc).
  rewrite (read_decimal_canonical whole' _ Hw' Hc').
  by rewrite (read_decimal_same_length frac frac' _ ltac:(congruence) Hf Hf').
Qed.

Lemma rendering_unique x t t' : rendering x t -> rendering x t' -> t = t'.
Proof.
  destruct x as [s|s| |s m e]; simpl.
  - apply fixed_point_text_unique.
  - congruence.
  - congruence.
  - intros (h & Hh & Ht) (h' & Hh' & Ht').
    rewrite <- (nearest_hundredth_unique _ _ _ _ Hh Hh') in Ht'.
    by eapply fixed_point_text_unique.
Qed.

Lemma mapM_result_fmap {A B C} (h : B -> result C) (g : A -> B) (g' : A -> C) xs :
  Forall (fun x => h (g x) = Ok (g' x)) xs -> mapM h (g <$> xs) = Ok (g' <$> xs).
Proof.
  induction 1 as [|x xs Hx _ IH]; [done|].
  cbn [fmap list_fmap mapM]. cbn [fmap list_fmap] in IH.
  rewrite Hx. simpl. rewrite IH. done.
Qed.

(** [apply_column] on a frame whose rows are given by a function. *)
Lemma apply_column_fmap {A} f col cols j (g g' : A -> list cell) xs :
  position col cols = Some j ->
  Forall (fun x => exists c c', g x !! j = Some c /\ f c = Ok c'
                                /\ g' x = <[j := c']> (g x)) xs ->
  apply_column f col {| labels := cols; cells := g <$> xs |}
  = Ok {| labels := cols; cells := g' <$> xs |}.
Proof.
  intros Hj Hrows. unfold apply_column. simpl. rewrite Hj.
  rewrite (mapM_result_fmap _ g g'); [done|].
  eapply Forall_impl; [exact Hrows|]. simpl.
  intros x (c & c' & -> & -> & ->). done.
Qed.

Lemma format_deduction (mixed : bool) r :
  deduction_converts r ->
  format_cell (Number (if mixed then upcast r.(Deduction) else r.(Deduction)))
  = Ok (Text (deduction_text r)).
Proof.
  intros [x Hx]. unfold deduction_text. rewrite Hx.
  assert (Hplain : format_cell (Number r.(Deduction)) = Ok (Text (Py.format_2f x))).
  { simpl. unfold Py.format_2f_number. by rewrite Hx. }
  destruct mixed; [|done].
  destruct r.(Deduction) as [n|y]; [|done].
  simpl in Hx. unfold Py.float_of_int in Hx. simpl.
  unfold Py.format_2f_number. simpl.
  by destruct (binary_normalize 53 1024 n 0 false); try discriminate Hx;
    injection Hx as <-.
Qed.

(** The deductions that [calculate_deductions] computes convert to floats:
    they are floats, or the int 0. *)
Lemma deduction_results_convert df threshold_hours results :
  deduction_results df threshold_hours = Ok results ->
  Forall deduction_converts results.
Proof.
  unfold deduction_results. intros Hres%mapM_result_Ok.
  induction Hres as [|row r rows results Hr _ IH]; constructor; [|done].
  unfold deduction_result in Hr.
  apply bind_Ok in Hr as (d & Hd & Hr). apply bind_Ok in Hr as (f & _ & Hr).
  injection Hr as <-. unfold deduction_converts. simpl.
  destruct (threshold_hours <=? row.(Total_Hours)).
  - injection Hd as <-. by eexists.
  - destruct (Py.mul_int_float _ _); [|done]. injection Hd as <-. by eexists.
Qed.

(** The data of the table for a frame made from one result at least. *)
Lemma table_data_results r rs :
  Forall deduction_converts (r :: rs) ->
  table_data (frame_of_results (r :: rs))
  = Ok ((Text <$> result_columns) :: (report_row <$> r :: rs)).
Proof.
  intros Hconv. unfold table_data, frame_of_results.
  set (mixed := existsb _ _). cbn [labels].
  rewrite (apply_column_fmap format_cell "Total Salary" result_columns 1
             (result_cells mixed)
             (fun r => [Text r.(res_Name);
                        Text (Py.format_2f r.(res_Total_Salary));
                        Number (Py.Int r.(Worked_Hours));
                        Number (Py.Int r.(Threshold_Hours));
                        Number (if mixed then upcast r.(Deduction)
                                else r.(Deduction));
                        Number (Py.Float r.(Final_Salary))]));
    [|done|by apply Forall_forall; intros; eexists _, _].
  cbn [mbind result_bind].
  rewrite (apply_column_fmap format_cell "Deduction" result_columns 4 _
             (fun r => [Text r.(res_Name);
                        Text (Py.format_2f r.(res_Total_Salary));
                        Number (Py.Int r.(Worked_Hours));
                        Number (Py.Int r.(Threshold_Hours));
                        Text (deduction_text r);
                        Number (Py.Float r.(Final_Salary))]));
    [|done|].
  - cbn [mbind result_bind].
    rewrite (apply_column_fmap format_cell "Final Salary" result_columns 5 _
               report_row);
      [done|done|by apply Forall_forall; intros; eexists _, _].
  - eapply Forall_impl; [exact Hconv|]. simpl. intros x Hx.
    eexists _, _. split; [reflexivity|]. split; [by apply format_deduction|done].
Qed.

(** C9, as amended: in the data of the table for one result at least, the
    cells of a body row for the total salary, the deduction and the final
    salary are the renderings of these values with two decimals: for a
    finite value the fixed-point text, with two digits after the point, of
    the value rounded to the nearest hundredth, ties to even, and for an
    infinite value or a NaN the text [inf], [-inf] or [nan]; the value
    determines the text.  The cells for the worked hours and the threshold
    hours are the ints of the result, not formatted. *)
Theorem money_cells_render_values
    (r : DeductionResult) (rs : list DeductionResult) :
  Forall deduction_converts (r :: rs) ->
  exists body,
    table_data (frame_of_results (r :: rs)) = Ok ((Text <$> result_columns) :: body)
    /\ Forall2
         (fun r row =>
            exists total deduction final : string,
              row = [Text r.(res_Name);
                     Text total;
                     Number (Py.Int r.(Worked_Hours));
                     Number (Py.Int r.(Threshold_Hours));
                     Text deduction;
                     Text final]
              /\ rendering r.(res_Total_Salary) total
              /\ match r.(Deduction) with
                 | Py.Float x => rendering x deduction
                 | Py.Int n =>
                     exists x, Py.float_of_int n = Ok x /\ rendering x deduction
                 end
              /\ rendering r.(Final_Salary) final)
         (r :: rs) body
    /\ (forall x text text', rendering x text -> rendering x text' -> text = text').
Proof.
  intros Hconv. exists (report_row <$> r :: rs).
  split; [by apply table_data_results|].
  split; [|apply rendering_unique].
  apply Forall2_fmap_r, Forall_Forall2_diag.
  eapply Forall_impl; [exact Hconv|]. cbn beta. intros x [y Hy].
  exists (Py.format_2f x.(res_Total_Salary)), (deduction_text x),
    (Py.format_2f x.(Final_Salary)).
  split; [done|]. split; [apply format_2f_rendering|].
  split; [|apply format_2f_rendering].
  unfold deduction_text. rewrite Hy.
  destruct x.(Deduction) as [n|z]; simpl in Hy.
  - exists y. split; [done|apply format_2f_rendering].
  - injection Hy as <-. apply format_2f_rendering.
Qed.

Variable build : list (list cell) -> result (list ascii).

(** C8, as amended: for a frame made from one result at least, [create_pdf]
    returns [None], after the call of [st.error], exactly when the document
    builder raises on the data of the table; when the builder succeeds, it
    returns the buffer with what the builder wrote and the cursor at 0. *)
Theorem render_fails_iff_build_raises
    (r : DeductionResult) (rs : list DeductionResult) :
  Forall deduction_converts (r :: rs) ->
  let df := frame_of_results (r :: rs) in
  let data := (Text <$> result_columns) :: (report_row <$> r :: rs) in
  (snd (create_pdf build df) = Ok None <-> exists e, build data = Raise e)
  /\ (forall e, build data = Raise e ->
        create_pdf build df = ([st_error_creating_pdf e], Ok None))
  /\ (forall written, build data = Ok written ->
        create_pdf build df
        = ([], Ok (Some {| Py.getvalue := written; Py.tell := 0 |}))).
Proof.
  intros Hconv df data. unfold create_pdf, df.
  rewrite (table_data_results r rs Hconv). fold data.
  destruct (build data) as [written|e]; repeat split; try done.
  - intros [e He]. done.
  - by intros written' [= ->].
  - by exists e.
  - by intros e' [= ->].
Qed.

End Renderer.

Lemma money_cells_render_values_witness :
  exists body,
    table_data (frame_of_results [alice_result])
    = Ok ((Text <$> result_columns) :: body)
    /\ Forall2
         (fun r row =>
            exists total deduction final : string,
              row = [Text r.(res_Name);
                     Text total;
                     Number (Py.Int r.(Worked_Hours));
                     Number (Py.Int r.(Threshold_Hours));
                     Text deduction;
                     Text final]
              /\ rendering r.(res_Total_Salary) total
              /\ match r.(Deduction) with
                 | Py.Float x => rendering x deduction
                 | Py.Int n =>
                     exists x, Py.float_of_int n = Ok x /\ rendering x deduction
                 end
              /\ rendering r.(Final_Salary) final)
         [alice_result] body.
Proof.
  destruct (money_cells_render_values alice_result []) as (body & Hdata & Hrows & _).
  - repeat constructor. eexists. reflexivity.
  - exists body. split; [exact Hdata|exact Hrows].
Defined.

(** C9 fails as stated: the parser accepts the literal [inf] as a total
    salary, and the cells of the table for the total salary and the final
    salary of that entry are the text [inf], which is no text with two
    decimals. *)
Lemma infinite_salary_cell :
  snd (process_pdf_data infinite_text)
  = Some {| columns := dataset_columns; rows := [bob] |}
  /\ deduction_results {| columns := dataset_columns; rows := [bob] |} 40
     = Ok [bob_result]
  /\ table_data (frame_of_results [bob_result])
     = Ok [Text <$> result_columns;
           [Text "Bob"; Text "inf"; Number (Py.Int 40); Number (Py.Int 40);
            Text "0.00"; Text "inf"]]
  /\ ~ two_decimals "inf".
Proof.
  split; [vm_compute; reflexivity|].
  split; [vm_compute; reflexivity|].
  split; [vm_compute; reflexivity|].
  intros (neg & whole & d1 & d2 & H & _).
  destruct neg; [discriminate H|].
  destruct whole as [|a [|b [|c [|d whole]]]]; discriminate H.
Qed.

Lemma render_fails_iff_build_raises_witness :
  create_pdf sample_build (frame_of_results [alice_result])
  = ([], Ok (Some {| Py.getvalue := ["%"; "P"; "D"; "F"]%char; Py.tell := 0 |})).
Proof.
  destruct (render_fails_iff_build_raises sample_build alice_result [])
    as (_ & _ & Hwritten).
  - repeat constructor. eexists. reflexivity.
  - apply Hwritten. reflexivity.
Defined.

(** C8 fails as stated: for no result at all the frame has no column, and
    [create_pdf] raises a [KeyError] before the builder is called; it
    returns neither [None] nor a buffer, though the builder does not raise. *)
Lemma render_of_no_result_raises :
  calculate_deductions {| columns := dataset_columns; rows := [] |} 40
  = Ok (frame_of_results [])
  /\ frame_of_results [] = {| labels := []; cells := [] |}
  /\ create_pdf sample_build (frame_of_results [])
     = ([], Raise (KeyError "Total Salary")).
Proof. repeat split. Qed.

(** ** The examples of the specification *)

Section Examples.

(** The header is dropped though it has 11 tokens, Alice is accepted and
    Bob is reported. *)
Example parse_sample :
  process_pdf_data sample_text
  = ([st_write_total_lines 3;
      st_warning_skipping "Bob notanumber 10 1 1 1 1 1 1 1 7"
        (ValueError ToFloat "notanumber");
      st_write_processed_entries 1],
     Some {| columns := dataset_columns; rows := [alice] |}).
Proof. vm_compute. reflexivity. Qed.

Example dataset_columns_value :
  dataset_columns
  = ["Name"; "Total Salary"; "Salary per hour"; "1/09/2024"; "2/09/2024";
     "3/09/2024"; "4/09/2024"; "5/09/2024"; "6/09/2024"; "7/09/2024";
     "Total Hours"].
Proof. reflexivity. Qed.

(** A threshold of 40 hours: no deduction. *)
Example alice_at_40 :
  deduction_results {| columns := dataset_columns; rows := [alice] |} 40
  = Ok [{| res_Name := "Alice";
           res_Total_Salary := alice.(Total_Salary);
           Worked_Hours := 40; Threshold_Hours := 40;
           Deduction := Py.Int 0;
           Final_Salary := alice.(Total_Salary) |}].
Proof. vm_compute. reflexivity. Qed.

(** A threshold of 45 hours: 5 hours at 25.00. *)
Example alice_at_45 :
  deduction_results {| columns := dataset_columns; rows := [alice] |} 45
  = Ok [alice_result]
  /\ table_data (frame_of_results [alice_result])
     = Ok [Text <$> result_columns;
           [Text "Alice"; Text "2000.00"; Number (Py.Int 40);
            Number (Py.Int 45); Text "125.00"; Text "1875.00"]].
Proof. split; vm_compute; reflexivity. Qed.

(** A header and blank lines only: no dataset. *)
Example blank_text :
  process_pdf_data "Name TotalSalary Rate D1 D2 D3 D4 D5 D6 D7 Total

   
"
  = ([st_write_total_lines 4; st_error_no_valid_data], None).
Proof. vm_compute. reflexivity. Qed.

(** The format [.2f] rounds to the nearest, ties to even, and keeps the
    sign of a negative zero. *)
Example format_2f_values :
  (Py.format_2f <$> Py.float "0.125") = Ok "0.12"
  /\ (Py.format_2f <$> Py.float "0.375") = Ok "0.38"
  /\ (Py.format_2f <$> Py.float "-0.001") = Ok "-0.00"
  /\ (Py.format_2f <$> Py.float "1e22") = Ok "10000000000000000000000.00"
  /\ (Py.format_2f <$> Py.float "-inf") = Ok "-inf"
  /\ Py.format_2f_number (Py.Int 0) = Ok "0.00".
Proof. repeat split; vm_compute; reflexivity. Qed.

(** [float] and [int] on some literals. *)
Example literals :
  Py.float "0.1" = Ok (S754_finite false 7205759403792794 (-56))
  /\ Py.float "1_0.5e1_0" = Ok (S754_finite false 6881280000000000 (-16))
  /\ Py.float "1e400" = Ok (S754_infinity false)
  /\ Py.float "2.5e-324" = Ok (S754_finite false 1 (-1074))
  /\ Py.float "NaN" = Ok S754_nan
  /\ Py.float "1__0" = Raise (ValueError ToFloat "1__0")
  /\ Py.float "2,000.00" = Raise (ValueError ToFloat "2,000.00")
  /\ Py.int "-0_7" = Ok (-7)
  /\ Py.int "+12" = Ok 12
  /\ Py.int "1.0" = Raise (ValueError ToInt "1.0").
Proof. repeat split; vm_compute; reflexivity. Qed.

End Examples.

(** * Further properties *)

(** ** White space *)

Section WhiteSpace.

Lemma rstrip_head s c r : Py.rstrip s = String c r -> exists t, s = String c t.
Proof.
  destruct s as [|c' s']; simpl; [done|].
  destruct (Py.rstrip s'); [destruct (Py.isspace c')|]; intros [= <- <-]; eauto.
Qed.

Lemma rstrip_idem s : Py.rstrip (Py.rstrip s) = Py.rstrip s.
Proof.
  induction s as [|c s IH]; simpl; [done|].
  destruct (Py.rstrip s) as [|c' r] eqn:Hr.
  - destruct (Py.isspace c) eqn:Hc; simpl; [done|]. by rewrite Hc.
  - simpl. simpl in IH. by rewrite IH.
Qed.

Lemma lstrip_head s c r : Py.lstrip s = String c r -> Py.isspace c = false.
Proof.
  induction s as [|c' s IH]; simpl; [done|].
  destruct (Py.isspace c') eqn:Hc'; [done|]. by intros [= <- <-].
Qed.

(** Stripping a stripped string changes nothing. *)
Lemma strip_idem s : Py.strip (Py.strip s) = Py.strip s.
Proof.
  unfold Py.strip.
  destruct (Py.rstrip (Py.lstrip s)) as [|c r] eqn:Hr; [done|].
  destruct (rstrip_head _ _ _ Hr) as [t Ht].
  apply lstrip_head in Ht. simpl. rewrite Ht.
  rewrite <- Hr. apply rstrip_idem.
Qed.

Lemma split_lstrip s : Py.split (Py.lstrip s) = Py.split s.
Proof.
  induction s as [|c s IH]; [done|].
  cbn [Py.lstrip Py.split]. destruct (Py.isspace c) eqn:Hc; [done|].
  simpl. by rewrite Hc.
Qed.

Lemma split_nil_head c s : Py.split (String c s) = [] -> Py.isspace c = true.
Proof.
  simpl. destruct (Py.isspace c); [done|].
  destruct s as [|c' s']; [done|].
  destruct (Py.isspace c'); [done|]. by destruct (Py.split (String c' s')).
Qed.

Lemma split_cons c s :
  Py.split (String c s)
  = if Py.isspace c then Py.split s
    else match s with
         | EmptyString => [String c EmptyString]
         | String c' _ =>
             if Py.isspace c' then String c EmptyString :: Py.split s
             else match Py.split s with
                  | tok :: toks => String c tok :: toks
                  | [] => [String c EmptyString]
                  end
         end.
Proof. reflexivity. Qed.

Lemma split_rstrip s : Py.split (Py.rstrip s) = Py.split s.
Proof.
  induction s as [|c s IH]; [done|].
  cbn [Py.rstrip]. destruct (Py.rstrip s) as [|c' r] eqn:Hr.
  - simpl in IH. destruct (Py.isspace c) eqn:Hc.
    + simpl. by rewrite Hc.
    + simpl. rewrite Hc. destruct s as [|c'' s']; [done|].
      symmetry in IH. rewrite (split_nil_head _ _ IH). by rewrite <- IH.
  - destruct (rstrip_head _ _ _ Hr) as [t ->].
    rewrite (split_cons c (String c' r)), (split_cons c (String c' t)).
    destruct (Py.isspace c); [done|].
    destruct (Py.isspace c'); by rewrite IH.
Qed.

(** The tokens of a line are those of the stripped line. *)
Lemma split_strip s : Py.split (Py.strip s) = Py.split s.
Proof. unfold Py.strip. by rewrite split_rstrip, split_lstrip. Qed.

Lemma strip_empty_split s : Py.strip s = EmptyString -> Py.split s = [].
Proof. intros H. by rewrite <- split_strip, H. Qed.

End WhiteSpace.

(** ** The diagnostics of the parser *)

Section Diagnostics.

(** A line of 11 tokens or more gives an entry or a warning, never both; a
    shorter line gives neither. *)
Lemma accept_or_warning line :
  match accept line, warning line with
  | Some _, None | None, Some _ => (11 <= length (Py.split line))%nat
  | None, None => (length (Py.split line) < 11)%nat
  | Some _, Some _ => False
  end.
Proof.
  unfold accept, warning.
  destruct (Nat.leb_spec 11 (length (Py.split line))); [|done].
  by destruct (coerce (Py.split line)).
Qed.

(** X1: a line of 11 tokens or more whose coercion raises is reported once,
    by a warning with the line and the [ValueError] raised; it adds no entry,
    not even a partial one, and the loop goes on: the entries are those of
    the other lines, and the warnings of the other lines keep their order
    around the new one. *)
Theorem failed_coercion_reported
    (line : string) (e : exn) (st : loop_state) (before after : list string) :
  (11 <= length (Py.split line))%nat ->
  coerce (Py.split line) = Raise e ->
  (exists what arg, e = ValueError what arg)
  /\ process_line st line = (st.1, st.2 ++ [st_warning_skipping line e])
  /\ fold_left process_line (before ++ line :: after) st
     = (st.1 ++ omap accept (before ++ after),
        st.2 ++ omap warning before
             ++ st_warning_skipping line e :: omap warning after).
Proof.
  intros Hlong He. destruct st as [processed trace].
  assert (Ha : accept line = None).
  { unfold accept. rewrite He. by destruct (11 <=? _)%nat. }
  assert (Hw : warning line = Some (st_warning_skipping line e)).
  { unfold warning. rewrite He.
    by destruct (Nat.leb_spec 11 (length (Py.split line))); [|lia]. }
  split; [by eapply coerce_raises|]. split.
  - rewrite process_line_spec, Ha, Hw. simpl. by rewrite app_nil_r.
  - rewrite loop_spec, !omap_app. simpl. by rewrite Ha, Hw.
Qed.

Lemma failed_coercion_reported_witness :
  fold_left process_line
    ["Alice 2,000.00 25.00 8 8 8 8 8 0 0 40";
     "Bob notanumber 10 1 1 1 1 1 1 1 7"] ([], [])
  = ([] ++ omap accept (["Alice 2,000.00 25.00 8 8 8 8 8 0 0 40"] ++ []),
     [] ++ omap warning ["Alice 2,000.00 25.00 8 8 8 8 8 0 0 40"]
        ++ st_warning_skipping "Bob notanumber 10 1 1 1 1 1 1 1 7"
             (ValueError ToFloat "notanumber") :: omap warning []).
Proof.
  apply (failed_coercion_reported "Bob notanumber 10 1 1 1 1 1 1 1 7"
           (ValueError ToFloat "notanumber") ([], [])
           ["Alice 2,000.00 25.00 8 8 8 8 8 0 0 40"] []).
  - vm_compute. lia.
  - vm_compute. reflexivity.
Defined.

Lemma rejection_report_warnings pdf_text :
  List.filter is_warning (fst (process_pdf_data pdf_text))
  = rejection_report pdf_text.
Proof.
  rewrite process_pdf_data_spec. cbn zeta.
  assert (Hrep : forall ls,
            List.filter is_warning (omap (fun l => warning (Py.strip l)) ls)
            = omap (fun l => warning (Py.strip l)) ls).
  { induction ls as [|l ls IH]; [done|]. simpl.
    destruct (warning (Py.strip l)) as [c|] eqn:Hw; [|exact IH].
    assert (Hc : is_warning c = true).
    { unfold warning in Hw. destruct (11 <=? _)%nat; [|done].
      destruct (coerce _); [done|]. by injection Hw as <-. }
    simpl. rewrite Hc. f_equal. exact IH. }
  destruct (accepted_records pdf_text); simpl;
    rewrite List.filter_app; simpl; rewrite app_nil_r; apply Hrep.
Qed.

(** X2: every line after the first that has 11 tokens or more is accounted
    for once: the number of entries and the number of warnings add up to the
    number of these lines, which is below the number of lines that
    [st.write] announces. *)
Theorem long_lines_accounted (pdf_text : string) :
  let lines := Py.split_on "010" pdf_text in
  (length (processed_data pdf_text)
   + length (List.filter is_warning (fst (process_pdf_data pdf_text)))
   = length (List.filter long_line (drop 1 lines)))%nat
  /\ (length (List.filter long_line (drop 1 lines)) < length lines)%nat
  /\ head (fst (process_pdf_data pdf_text))
     = Some (st_write_total_lines (length lines)).
Proof.
  intros lines. rewrite rejection_report_warnings, processed_data_spec.
  unfold accepted_records, rejection_report. fold lines. repeat split.
  - induction (drop 1 lines) as [|l ls IH]; [done|]. simpl.
    unfold omap in IH.
    pose proof (accept_or_warning (Py.strip l)) as H. unfold long_line at 1.
    destruct (accept (Py.strip l)), (warning (Py.strip l)); try done;
      destruct (Nat.leb_spec 11 (length (Py.split (Py.strip l))));
      simpl; lia.
  - assert (Hne : (0 < length lines)%nat).
    { unfold lines. destruct pdf_text as [|c s]; simpl; [lia|].
      destruct (Ascii.eqb c "010"); simpl; [lia|].
      destruct (Py.split_on "010" s); simpl; lia. }
    pose proof (List.filter_length_le long_line (drop 1 lines)) as Hle.
    rewrite length_drop in Hle. lia.
  - rewrite process_pdf_data_spec. cbn zeta. fold lines.
    by destruct (accepted_records pdf_text).
Qed.

(** X3: every warning in the trace of [process_pdf_data] is for a line after
    the first, stripped and not empty, that has 11 tokens or more and whose
    coercion raised the [ValueError] shown.  No [IndexError] is ever
    reported: the guard on the number of tokens leaves that arm of the
    handler without use. *)
Theorem warnings_are_value_errors (pdf_text line : string) (e : exn) :
  In (st_warning_skipping line e) (fst (process_pdf_data pdf_text)) ->
  (exists what arg, e = ValueError what arg)
  /\ (11 <= length (Py.split line))%nat
  /\ coerce (Py.split line) = Raise e
  /\ Py.strip line = line
  /\ exists i raw, (1 <= i)%nat
       /\ Py.split_on "010" pdf_text !! i = Some raw /\ line = Py.strip raw.
Proof.
  intros Hin.
  assert (Hrep : In (st_warning_skipping line e) (rejection_report pdf_text)).
  { rewrite <- rejection_report_warnings. apply List.filter_In. by split. }
  unfold rejection_report in Hrep.
  apply list_elem_of_In, list_elem_of_omap in Hrep as (raw & Hraw & Hw).
  unfold warning in Hw.
  destruct (Nat.leb_spec 11 (length (Py.split (Py.strip raw)))) as [Hlong|];
    [|done].
  destruct (coerce (Py.split (Py.strip raw))) as [|e'] eqn:He; [done|].
  injection Hw as <- <-.
  split; [by eapply coerce_raises|]. repeat split; try done.
  - apply strip_idem.
  - apply list_elem_of_lookup in Hraw as [i Hi]. rewrite lookup_drop in Hi.
    exists (1 + i)%nat, raw. repeat split; [lia|done].
Qed.

Lemma warnings_are_value_errors_witness :
  coerce (Py.split "Bob notanumber 10 1 1 1 1 1 1 1 7")
  = Raise (ValueError ToFloat "notanumber").
Proof.
  apply (warnings_are_value_errors sample_text
           "Bob notanumber 10 1 1 1 1 1 1 1 7" (ValueError ToFloat "notanumber")).
  vm_compute. right. left. reflexivity.
Defined.

(** X4: the entries depend on the tokens of the lines after the first and on
    nothing else: two texts whose lines after the first have the same tokens,
    line by line, give the same entries, whatever white space stands between
    and around the tokens. *)
Theorem entries_depend_on_tokens (pdf_text pdf_text' : string) :
  Forall2 (fun line line' => Py.split line = Py.split line')
          (drop 1 (Py.split_on "010" pdf_text))
          (drop 1 (Py.split_on "010" pdf_text')) ->
  processed_data pdf_text = processed_data pdf_text'
  /\ (snd (process_pdf_data pdf_text) = None
      <-> snd (process_pdf_data pdf_text') = None).
Proof.
  intros Hlines.
  assert (Heq : processed_data pdf_text = processed_data pdf_text').
  { rewrite !processed_data_spec. unfold accepted_records.
    induction Hlines as [|l l' ls ls' Hl _ IH]; [done|]. simpl.
    assert (Ha : accept (Py.strip l) = accept (Py.strip l'))
      by (unfold accept; by rewrite !split_strip, Hl).
    rewrite Ha. destruct (accept (Py.strip l')); [f_equal|]; exact IH. }
  split; [done|]. rewrite !returned_frame, Heq.
  by destruct (processed_data pdf_text').
Qed.

Lemma entries_depend_on_tokens_witness :
  processed_data "Name Total Rate 1 2 3 4 5 6 7 Hours
Alice 2,000.00 25.00 8 8 8 8 8 0 0 40"
  = processed_data "Employee
   Alice   2,000.00 25.00   8 8 8 8 8 0 0   40   ".
Proof.
  refine (proj1 (entries_depend_on_tokens
           "Name Total Rate 1 2 3 4 5 6 7 Hours
Alice 2,000.00 25.00 8 8 8 8 8 0 0 40"
           "Employee
   Alice   2,000.00 25.00   8 8 8 8 8 0 0   40   " _)).
  replace (drop 1 (Py.split_on "010" _))
    with ["Alice 2,000.00 25.00 8 8 8 8 8 0 0 40"] by (vm_compute; reflexivity).
  replace (drop 1 (Py.split_on "010" _))
    with ["   Alice   2,000.00 25.00   8 8 8 8 8 0 0   40   "]
    by (vm_compute; reflexivity).
  constructor; [vm_compute; reflexivity|constructor].
Defined.

End Diagnostics.

(** ** The pages of the document *)

Section Pages.

Lemma append_assoc (a b c : string) : (a +:+ b) +:+ c = a +:+ (b +:+ c).
Proof.
  induction a as [|x a IH]; [done|].
  change (String x ((a +:+ b) +:+ c) = String x (a +:+ (b +:+ c))).
  by rewrite IH.
Qed.

Lemma split_on_cons sep s : exists piece pieces, Py.split_on sep s = piece :: pieces.
Proof.
  destruct s as [|c s]; simpl; [by eexists _, _|].
  destruct (Ascii.eqb c sep); [by eexists _, _|].
  destruct (Py.split_on sep s); by eexists _, _.
Qed.

(** The lines of a text that has a separator at some place are the lines
    before it and the lines after it. *)
Lemma split_on_app_sep sep q r :
  Py.split_on sep (q +:+ String sep r) = Py.split_on sep q ++ Py.split_on sep r.
Proof.
  induction q as [|c q IH]; simpl.
  - by rewrite Ascii.eqb_refl.
  - destruct (Ascii.eqb c sep); [by rewrite IH|].
    rewrite IH. destruct (split_on_cons sep q) as (p & ps & ->). done.
Qed.

(** The lines of two texts put end to end: the last line of the first and the
    first line of the second make one line. *)
Lemma split_on_app sep a b :
  exists before last_line first_line after,
    Py.split_on sep a = before ++ [last_line]
    /\ Py.split_on sep b = first_line :: after
    /\ Py.split_on sep (a +:+ b) = before ++ (last_line +:+ first_line) :: after.
Proof.
  induction a as [|c a IH].
  - destruct (split_on_cons sep b) as (hb & tb & Hb).
    by exists [], EmptyString, hb, tb.
  - destruct IH as (la & xa & hb & tb & Ha & Hb & Hab). simpl.
    destruct (Ascii.eqb c sep).
    + exists (EmptyString :: la), xa, hb, tb. by rewrite Ha, Hab.
    + rewrite Ha, Hab. destruct la as [|l0 ls].
      * by exists [], (String c xa), hb, tb.
      * by exists (String c l0 :: ls), xa, hb, tb.
Qed.

Lemma extract_text_snoc pages page :
  extract_text_from_pdf (pages ++ [page]) = extract_text_from_pdf pages +:+ page.
Proof. unfold extract_text_from_pdf. by rewrite fold_left_app. Qed.

(** X5: the text of the document is the texts of its pages put end to end
    with nothing between them, so that a page break is no line break: the
    last line of the pages so far and the first line of the next page are
    read as one line. *)
Theorem pages_joined_without_separator (pages : list string) (page : string) :
  extract_text_from_pdf (pages ++ [page])
  = extract_text_from_pdf pages +:+ page
  /\ exists before last_line first_line after,
       Py.split_on "010" (extract_text_from_pdf pages) = before ++ [last_line]
       /\ Py.split_on "010" page = first_line :: after
       /\ Py.split_on "010" (extract_text_from_pdf (pages ++ [page]))
          = before ++ (last_line +:+ first_line) :: after.
Proof.
  split; [apply extract_text_snoc|].
  rewrite extract_text_snoc. apply split_on_app.
Qed.

(** X6: only the first line of the first page is dropped.  When the text of
    the pages so far ends with a line break, the entries of the document with
    one more page are those so far followed by the entries of all the lines
    of the new page, its first line among them. *)
Theorem first_line_of_later_page_is_data (pages : list string) (page q : string) :
  extract_text_from_pdf pages = q +:+ String "010" EmptyString ->
  processed_data (extract_text_from_pdf (pages ++ [page]))
  = processed_data (extract_text_from_pdf pages)
    ++ omap (fun line => accept (Py.strip line)) (Py.split_on "010" page).
Proof.
  intros Hq. rewrite extract_text_snoc, !processed_data_spec, Hq.
  unfold accepted_records.
  rewrite append_assoc.
  change (String "010" EmptyString +:+ page) with (String "010" page).
  rewrite !split_on_app_sep.
  destruct (split_on_cons "010" q) as (p & ps & ->).
  change (drop 1 ((p :: ps) ++ ?l)) with (ps ++ l).
  rewrite !omap_app. simpl. by rewrite app_nil_r.
Qed.

Lemma first_line_of_later_page_is_data_witness :
  processed_data
    (extract_text_from_pdf
       (["Name Total Rate 1 2 3 4 5 6 7 Hours
"] ++ ["Alice 2,000.00 25.00 8 8 8 8 8 0 0 40"]))
  = processed_data
      (extract_text_from_pdf ["Name Total Rate 1 2 3 4 5 6 7 Hours
"])
    ++ omap (fun line => accept (Py.strip line))
            (Py.split_on "010" "Alice 2,000.00 25.00 8 8 8 8 8 0 0 40").
Proof.
  apply (first_line_of_later_page_is_data
           ["Name Total Rate 1 2 3 4 5 6 7 Hours
"] "Alice 2,000.00 25.00 8 8 8 8 8 0 0 40"
           "Name Total Rate 1 2 3 4 5 6 7 Hours").
  reflexivity.
Defined.

End Pages.

(** ** The failures and the fixed points of the calculator *)

Section CalculatorEdges.

Lemma float_of_int_raises n e : Py.float_of_int n = Raise e -> e = OverflowError.
Proof.
  unfold Py.float_of_int.
  destruct (binary_normalize 53 1024 n 0 false); congruence.
Qed.

(** [x - 0] is [x], whatever the float [x]. *)
Lemma sub_float_zero x : Py.sub_float_number x (Py.Int 0) = Ok x.
Proof. by destruct x as [[]|[]| |[] m e]. Qed.

Lemma deduction_result_raises threshold_hours row e :
  deduction_result threshold_hours row = Raise e ->
  e = OverflowError /\ shortfall_overflows threshold_hours row.
Proof.
  unfold deduction_result, shortfall_overflows.
  destruct (Z.leb_spec threshold_hours row.(Total_Hours)) as [Hge|Hlt].
  - cbn [mbind result_bind]. by rewrite sub_float_zero.
  - unfold Py.mul_int_float.
    destruct (Py.float_of_int _) as [k|e'] eqn:Hk; simpl; [done|].
    intros [= <-]. apply float_of_int_raises in Hk as ->. done.
Qed.

Lemma deduction_result_overflow threshold_hours row :
  shortfall_overflows threshold_hours row ->
  deduction_result threshold_hours row = Raise OverflowError.
Proof.
  intros [Hlt Hk]. unfold deduction_result, Py.mul_int_float.
  destruct (Z.leb_spec threshold_hours row.(Total_Hours)); [lia|].
  by rewrite Hk.
Qed.

Lemma deduction_result_at_threshold threshold_hours row :
  threshold_hours <= row.(Total_Hours) ->
  deduction_result threshold_hours row = Ok (undeducted threshold_hours row).
Proof.
  intros Hge. unfold deduction_result.
  destruct (Z.leb_spec threshold_hours row.(Total_Hours)); [|lia].
  cbn [mbind result_bind]. by rewrite sub_float_zero.
Qed.

Lemma deduction_results_raises df threshold_hours e :
  deduction_results df threshold_hours = Raise e ->
  e = OverflowError /\ Exists (shortfall_overflows threshold_hours) df.(rows).
Proof.
  unfold deduction_results. intros (row & Hin & Hrow)%mapM_result_raises.
  apply deduction_result_raises in Hrow as [-> Hrow]. split; [done|].
  apply Exists_exists. eauto.
Qed.

Lemma deduction_results_overflow df threshold_hours :
  Exists (shortfall_overflows threshold_hours) df.(rows) ->
  deduction_results df threshold_hours = Raise OverflowError.
Proof.
  unfold deduction_results. intros Hex.
  destruct (mapM _ _) as [results|e] eqn:Hres.
  - apply mapM_result_Ok in Hres.
    apply Exists_exists in Hex as (row & Hin & Hrow).
    apply list_elem_of_lookup in Hin as [i Hi].
    destruct (Forall2_lookup_l _ _ _ _ _ Hres Hi) as (r & _ & Hr).
    by rewrite (deduction_result_overflow _ _ Hrow) in Hr.
  - apply mapM_result_raises in Hres as (row & _ & Hrow).
    by apply deduction_result_raises in Hrow as [-> _].
Qed.

(** X7: [calculate_deductions] raises nothing but an [OverflowError], and
    it raises it exactly when some row below the threshold has a shortfall of
    hours that does not convert to a float. *)
Theorem calculate_deductions_raises_only_overflow
    (df : DataFrame) (threshold_hours : Z) (e : exn) :
  calculate_deductions df threshold_hours = Raise e
  <-> e = OverflowError
      /\ Exists (shortfall_overflows threshold_hours) df.(rows).
Proof.
  unfold calculate_deductions. split.
  - destruct (deduction_results df threshold_hours) as [results|e'] eqn:Hres;
      [done|].
    intros [= <-]. by apply deduction_results_raises.
  - intros [-> Hex]. by rewrite deduction_results_overflow.
Qed.

Lemma frame_of_results_cells results :
  cells (frame_of_results results)
  = result_cells (existsb (fun r => is_float r.(Deduction)) results) <$> results.
Proof. by destruct results. Qed.

(** X8: when the worked hours of every row reach the threshold, nothing is
    deducted from anyone: every deduction is the int 0, which stays an int in
    the frame, and every final salary is the total salary, bit for bit. *)
Theorem rows_at_threshold_keep_salary (df : DataFrame) (threshold_hours : Z) :
  Forall (fun row => threshold_hours <= row.(Total_Hours)) df.(rows) ->
  deduction_results df threshold_hours
  = Ok (undeducted threshold_hours <$> df.(rows))
  /\ exists frame,
       calculate_deductions df threshold_hours = Ok frame
       /\ frame.(cells)
          = (fun row => [Text row.(Name);
                         Number (Py.Float row.(Total_Salary));
                         Number (Py.Int row.(Total_Hours));
                         Number (Py.Int threshold_hours);
                         Number (Py.Int 0);
                         Number (Py.Float row.(Total_Salary))]) <$> df.(rows).
Proof.
  intros Hall.
  assert (Hres : deduction_results df threshold_hours
                 = Ok (undeducted threshold_hours <$> df.(rows))).
  { unfold deduction_results.
    induction Hall as [|row rs Hrow _ IH]; [done|].
    cbn [mapM fmap list_fmap]. cbn [fmap list_fmap] in IH.
    rewrite deduction_result_at_threshold by done. simpl. by rewrite IH. }
  split; [done|]. unfold calculate_deductions. rewrite Hres.
  eexists. split; [reflexivity|].
  assert (Hints : forall rs : list Row,
            existsb (fun r => is_float r.(Deduction))
                    (undeducted threshold_hours <$> rs) = false)
    by (induction rs as [|row rs IH]; [reflexivity|exact IH]).
  rewrite frame_of_results_cells, Hints. by rewrite <- list_fmap_compose.
Qed.

Lemma rows_at_threshold_keep_salary_witness :
  deduction_results {| columns := dataset_columns; rows := [alice] |} 40
  = Ok (undeducted 40 <$> [alice]).
Proof.
  apply (rows_at_threshold_keep_salary
           {| columns := dataset_columns; rows := [alice] |} 40).
  repeat constructor. vm_compute. discriminate.
Defined.

End CalculatorEdges.

(** ** The frame of the parser *)

Section ParserFrame.

(** X10: the frame that [process_pdf_data] returns is never empty, so that
    the test [not df.empty] of [main] never fails on it; it has 11 columns,
    and every entry has 11 cells, one for each column, as [pd.DataFrame]
    needs. *)
Theorem returned_frame_fits_columns (pdf_text : string) (df : DataFrame) :
  snd (process_pdf_data pdf_text) = Some df ->
  df.(rows) <> []
  /\ length df.(columns) = 11%nat
  /\ Forall (fun r => length (entry_cells r) = length df.(columns)) df.(rows).
Proof.
  rewrite returned_frame. pose proof (accepted_records_shape pdf_text) as Hs.
  rewrite <- processed_data_spec in Hs.
  destruct (processed_data pdf_text) as [|r rs] eqn:Hp; [done|].
  intros [= <-]. cbn [rows columns]. repeat split; [done|].
  eapply Forall_impl; [exact Hs|]. cbn beta. intros r' (_ & _ & Hdays).
  unfold entry_cells. rewrite !length_app, length_fmap, Hdays. reflexivity.
Qed.

Lemma returned_frame_fits_columns_witness :
  {| columns := dataset_columns; rows := [alice] |}.(rows) <> [].
Proof.
  apply (returned_frame_fits_columns sample_text
           {| columns := dataset_columns; rows := [alice] |}).
  vm_compute. reflexivity.
Defined.

End ParserFrame.

(** ** The preview of the text *)

Section Preview.

Lemma length_append (a b : string) :
  String.length (a +:+ b) = (String.length a + String.length b)%nat.
Proof.
  induction a as [|x a IH]; [done|].
  change (S (String.length (a +:+ b)) = S (String.length a + String.length b)).
  by rewrite IH.
Qed.

Lemma substring_prefix n s :
  exists rest, s = String.substring 0 n s +:+ rest
               /\ String.length (String.substring 0 n s)
                  = Nat.min n (String.length s).
Proof.
  revert s. induction n as [|n IH]; intros s.
  - exists s. by destruct s.
  - destruct s as [|c s]; [by exists EmptyString|].
    destruct (IH s) as (rest & Hrest & Hlen). exists rest. split.
    + change (String c s = String c (String.substring 0 n s +:+ rest)).
      by rewrite <- Hrest.
    + change (S (String.length (String.substring 0 n s))
              = S (Nat.min n (String.length s))).
      by rewrite Hlen.
Qed.

(** X11: the preview that [main] shows is the text itself when the text has
    500 characters at most, else its first 500 characters followed by three
    dots: 503 characters, never more. *)
Theorem preview_bounded (pdf_text : string) :
  (String.length (preview pdf_text) <= 503)%nat
  /\ ((String.length pdf_text <= 500)%nat -> preview pdf_text = pdf_text)
  /\ ((500 < String.length pdf_text)%nat ->
      String.length (preview pdf_text) = 503%nat
      /\ exists shown rest,
           pdf_text = shown +:+ rest /\ String.length shown = 500%nat
           /\ preview pdf_text = shown +:+ "...").
Proof.
  unfold preview.
  destruct (substring_prefix 500 pdf_text) as (rest & Hrest & Hlen).
  destruct (Nat.ltb_spec 500 (String.length pdf_text)) as [Hlong|Hshort].
  - assert (Hshown : String.length (String.substring 0 500 pdf_text) = 500%nat)
      by lia.
    repeat split.
    + rewrite length_append, Hshown. simpl. lia.
    + lia.
    + rewrite length_append, Hshown. reflexivity.
    + by exists (String.substring 0 500 pdf_text), rest.
  - repeat split; try done; lia.
Qed.

Lemma preview_bounded_witness : preview sample_text = sample_text.
Proof. apply (preview_bounded sample_text). vm_compute. lia. Defined.

End Preview.

(** ** The renderer on frames that lack a column *)

Section MissingColumn.

Lemma position_None col cols : position col cols = None <-> ~ In col cols.
Proof.
  induction cols as [|c cols IH]; simpl; [tauto|].
  destruct (String.eqb_spec c col) as [->|Hne].
  - split; [done|]. intros H. exfalso. apply H. by left.
  - destruct (position col cols) as [j|]; simpl.
    + split; [done|]. intros H. exfalso.
      assert (Hj : Some j = None) by (apply IH; tauto). done.
    + split; [|done]. intros _ [?|?]; [done|]. by apply IH.
Qed.

Lemma format_cell_raises c e :
  format_cell c = Raise e ->
  e = OverflowError \/ exists s, e = ValueError FormatF s.
Proof.
  destruct c as [s|d]; simpl.
  - intros [= <-]. eauto.
  - unfold Py.format_2f_number.
    destruct d as [n|x]; simpl; [|done].
    destruct (Py.float_of_int n) as [k|e'] eqn:Hk; simpl; [done|].
    intros [= <-]. left. by eapply float_of_int_raises.
Qed.

(** [apply_column] keeps the labels, and raises a [KeyError] for a column
    that the frame lacks and in no other case. *)
Lemma apply_column_Ok col df df' :
  apply_column format_cell col df = Ok df' -> df'.(labels) = df.(labels).
Proof.
  unfold apply_column. destruct (position col df.(labels)); [|done].
  destruct (mapM _ _); simpl; [|done]. by intros [= <-].
Qed.

Lemma apply_column_KeyError col df key :
  apply_column format_cell col df = Raise (KeyError key) ->
  key = col /\ ~ In col df.(labels).
Proof.
  unfold apply_column. destruct (position col df.(labels)) as [j|] eqn:Hj.
  - destruct (mapM _ _) as [|e] eqn:Hm; simpl; [done|]. intros [= ->].
    apply mapM_result_raises in Hm as (row & _ & Hrow).
    destruct (row !! j) as [c|]; [|done].
    destruct (format_cell c) as [|e] eqn:Hc; simpl in Hrow; [done|].
    injection Hrow as ->. by apply format_cell_raises in Hc as [?|[? ?]].
  - intros [= ->]. split; [done|]. by apply position_None.
Qed.

Lemma apply_column_missing col df :
  ~ In col df.(labels) -> apply_column format_cell col df = Raise (KeyError col).
Proof.
  intros H%position_None. unfold apply_column. by rewrite H.
Qed.

Lemma table_data_KeyError df key :
  table_data df = Raise (KeyError key) ->
  ~ In key df.(labels)
  /\ In key ["Total Salary"; "Deduction"; "Final Salary"].
Proof.
  unfold table_data. intros H.
  apply bind_Raise in H as [H|(f1 & H1 & H)].
  { apply apply_column_KeyError in H as [-> H]. split; [done|]. by left. }
  apply apply_column_Ok in H1.
  apply bind_Raise in H as [H|(f2 & H2 & H)].
  { apply apply_column_KeyError in H as [-> H]. rewrite H1 in H.
    split; [done|]. right. by left. }
  apply apply_column_Ok in H2.
  apply bind_Raise in H as [H|(f3 & H3 & H)]; [|done].
  apply apply_column_KeyError in H as [-> H]. rewrite H2, H1 in H.
  split; [done|]. right. right. by left.
Qed.

Variable build : list (list cell) -> result (list ascii).

(** X12: on a frame without the column ['Total Salary'], such as the frame
    made from no result, [create_pdf] raises a [KeyError] for that column: it
    makes no call and does not reach the builder.  A [KeyError] that leaves
    [create_pdf] is always for one of the three formatted columns, which the
    frame lacks, and nothing was reported before it. *)
Theorem create_pdf_missing_column (df : Frame) :
  (~ In "Total Salary" df.(labels) ->
   create_pdf build df = ([], Raise (KeyError "Total Salary")))
  /\ (forall key, snd (create_pdf build df) = Raise (KeyError key) ->
        ~ In key df.(labels)
        /\ In key ["Total Salary"; "Deduction"; "Final Salary"]
        /\ fst (create_pdf build df) = []).
Proof.
  split.
  - intros Hmissing. unfold create_pdf, table_data.
    by rewrite apply_column_missing.
  - intros key. unfold create_pdf.
    destruct (table_data df) as [data|e] eqn:Hdata.
    + by destruct (build data).
    + simpl. intros [= ->].
      apply table_data_KeyError in Hdata as [? ?]. done.
Qed.

End MissingColumn.

Lemma create_pdf_missing_column_witness :
  create_pdf sample_build {| labels := ["Name"; "Deduction"]; cells := [] |}
  = ([], Raise (KeyError "Total Salary")).
Proof.
  apply (create_pdf_missing_column sample_build
           {| labels := ["Name"; "Deduction"]; cells := [] |}).
  simpl. intros [H|[H|[]]]; discriminate H.
Defined.

(** ** The renderer after the calculator *)

Section Pipeline.

Variable build : list (list cell) -> result (list ascii).

(** X15: [create_pdf] on what [calculate_deductions] returns for a dataset
    with one row at least never raises: every column it formats is there and
    every deduction is a float or the int 0.  The data of the table are the
    header and one row for each row of the dataset, and [create_pdf] returns
    the buffer when the builder succeeds, and [None], after the call of
    [st.error], when the builder raises. *)
Theorem create_pdf_of_calculation
    (df : DataFrame) (threshold_hours : Z) (result_df : Frame) :
  df.(rows) <> [] ->
  calculate_deductions df threshold_hours = Ok result_df ->
  exists results,
    deduction_results df threshold_hours = Ok results
    /\ length results = length df.(rows)
    /\ result_df = frame_of_results results
    /\ table_data result_df
       = Ok ((Text <$> result_columns) :: (report_row <$> results))
    /\ create_pdf build result_df
       = match build ((Text <$> result_columns) :: (report_row <$> results)) with
         | Ok written =>
             ([], Ok (Some {| Py.getvalue := written; Py.tell := 0 |}))
         | Raise e => ([st_error_creating_pdf e], Ok None)
         end.
Proof.
  intros Hne. unfold calculate_deductions.
  destruct (deduction_results df threshold_hours) as [results|e] eqn:Hres;
    cbn [fmap result_fmap]; [|done].
  intros [= <-]. exists results.
  pose proof (deduction_results_convert _ _ _ Hres) as Hconv.
  pose proof Hres as Hlen. apply mapM_result_length in Hlen.
  destruct results as [|r rs]; [by destruct df.(rows)|].
  repeat split; [done|by apply table_data_results|].
  unfold create_pdf. rewrite (table_data_results r rs Hconv).
  by destruct (build _).
Qed.

End Pipeline.

Lemma create_pdf_of_calculation_witness :
  exists results,
    deduction_results {| columns := dataset_columns; rows := [alice] |} 45
    = Ok results
    /\ length results = 1%nat
    /\ frame_of_results [alice_result] = frame_of_results results
    /\ table_data (frame_of_results [alice_result])
       = Ok ((Text <$> result_columns) :: (report_row <$> results))
    /\ create_pdf sample_build (frame_of_results [alice_result])
       = match sample_build ((Text <$> result_columns)
                             :: (report_row <$> results)) with
         | Ok written =>
             ([], Ok (Some {| Py.getvalue := written; Py.tell := 0 |}))
         | Raise e => ([st_error_creating_pdf e], Ok None)
         end.
Proof.
  apply (create_pdf_of_calculation sample_build
           {| columns := dataset_columns; rows := [alice] |} 45
           (frame_of_results [alice_result])).
  - discriminate.
  - vm_compute. reflexivity.
Defined.

Lemma calculate_deductions_raises_only_overflow_witness :
  calculate_deductions {| columns := dataset_columns; rows := [alice] |}
                       (10 ^ 400)
  = Raise OverflowError.
Proof.
  apply (calculate_deductions_raises_only_overflow
           {| columns := dataset_columns; rows := [alice] |} (10 ^ 400)
           OverflowError).
  split; [reflexivity|].
  constructor. split; vm_compute; reflexivity.
Defined.
